(** * Boots: boot-artifact renderers and HTTP front

    A shallow embedding of the network-boot provisioning service:
    the HTTP handlers of [cmd/boots/http.go], the expectations of the
    installers' tests ([installers/vmware], [installers/flatcar], the
    custom-iPXE installer), and the properties the specification states
    about them.

    Go strings are byte strings; they are [string] here, with [++] for
    concatenation.  Go's [int] status codes are [Z]. *)

From Stdlib Require Import String Ascii List ZArith Lia Bool.
From Stdlib Require DecimalString DecimalZ.
Import ListNotations.
Open Scope string_scope.
Set Warnings "-register-all".

(** ** Bytes that cannot stand in a literal *)

Definition nl : string := String (ascii_of_nat 10) EmptyString.
Definition dq : string := String (ascii_of_nat 34) EmptyString.
Definition bsl : string := String (ascii_of_nat 92) EmptyString.
Definition tab : string := String (ascii_of_nat 9) EmptyString.

(** Lines written one after the other, each closed by a newline. *)
Fixpoint unlines (l : list string) : string :=
  match l with
  | [] => EmptyString
  | x :: rest => x ++ nl ++ unlines rest
  end.

(** ** The parts of Go's [strings] package the code uses *)

Module strings.

(** [strings.Join(elems, sep)]. *)
Fixpoint Join (elems : list string) (sep : string) : string :=
  match elems with
  | [] => EmptyString
  | [e] => e
  | e :: rest => e ++ sep ++ Join rest sep
  end.

(** [strings.HasPrefix(s, prefix)]. *)
Fixpoint HasPrefix (s p : string) {struct p} : bool :=
  match p with
  | EmptyString => true
  | String c p' =>
      match s with
      | EmptyString => false
      | String d s' => Ascii.eqb c d && HasPrefix s' p'
      end
  end.

(** [strings.Contains(s, substr)]. *)
Fixpoint Contains (s sub : string) : bool :=
  HasPrefix s sub ||
  match s with
  | EmptyString => false
  | String _ s' => Contains s' sub
  end.

(** The scan of [strings.ReplaceAll] for a non-empty [old]: left to right,
    each match is replaced and the bytes it covers are skipped ([skip]
    counts those still to pass), so matches never overlap. *)
Fixpoint replaceFrom (old new : string) (skip : nat) (s : string) : string :=
  match s with
  | EmptyString => EmptyString
  | String c s' =>
      match skip with
      | S k => replaceFrom old new k s'
      | O =>
          if HasPrefix s old
          then new ++ replaceFrom old new (String.length old - 1) s'
          else String c (replaceFrom old new O s')
      end
  end.

(** [utf8.DecodeRuneInString]'s width: the number of bytes of the UTF-8
    sequence the text starts with (0 for no text); a byte that starts no
    well-formed sequence counts alone, as Go reads it (RuneError, 1). *)
Definition between (lo hi b : nat) : bool := Nat.leb lo b && Nat.leb b hi.

Definition runeWidth (s : string) : nat :=
  match s with
  | EmptyString => 0
  | String c0 rest =>
      let b0 := nat_of_ascii c0 in
      (* size of the sequence and accepted range of its second byte *)
      let '(size, lo, hi) :=
        if Nat.ltb b0 128 then (1, 0, 0)
        else if between 194 223 b0 then (2, 128, 191)
        else if Nat.eqb b0 224 then (3, 160, 191)
        else if between 225 236 b0 then (3, 128, 191)
        else if Nat.eqb b0 237 then (3, 128, 159)
        else if between 238 239 b0 then (3, 128, 191)
        else if Nat.eqb b0 240 then (4, 144, 191)
        else if between 241 243 b0 then (4, 128, 191)
        else if Nat.eqb b0 244 then (4, 128, 143)
        else (1, 0, 0) in
      if Nat.leb size 1 then 1
      else if Nat.ltb (String.length s) size then 1
      else
        match rest with
        | EmptyString => 1
        | String c1 rest1 =>
            if negb (between lo hi (nat_of_ascii c1)) then 1
            else if Nat.leb size 2 then 2
            else
              match rest1 with
              | EmptyString => 1
              | String c2 rest2 =>
                  if negb (between 128 191 (nat_of_ascii c2)) then 1
                  else if Nat.leb size 3 then 3
                  else
                    match rest2 with
                    | EmptyString => 1
                    | String c3 _ =>
                        if negb (between 128 191 (nat_of_ascii c3)) then 1
                        else 4
                    end
              end
        end
  end.

(** The scan of [strings.ReplaceAll] for an empty [old]: [new] goes in
    at the beginning and after each UTF-8 sequence ([skip] counts the bytes
    of the current sequence still to copy). *)
Fixpoint insertAtRunes (new : string) (skip : nat) (s : string) : string :=
  match s with
  | EmptyString => new
  | String c s' =>
      match skip with
      | S k => String c (insertAtRunes new k s')
      | O => new ++ String c (insertAtRunes new (runeWidth s - 1) s')
      end
  end.

Definition intersperse (new s : string) : string := insertAtRunes new 0 s.

(** [strings.ReplaceAll(s, old, new)]. *)
Definition ReplaceAll (s old new : string) : string :=
  match old with
  | EmptyString => intersperse new s
  | _ => replaceFrom old new O s
  end.

(** The scan of [strings.Split] for a one-byte separator: [cur] is the
    piece being read, in reverse. *)
Fixpoint splitOn (sep : ascii) (cur : string) (s : string) : list string :=
  match s with
  | EmptyString => [cur]
  | String c s' =>
      if Ascii.eqb c sep
      then cur :: splitOn sep EmptyString s'
      else splitOn sep (cur ++ String c EmptyString) s'
  end.

(** [strings.Split(s, "\n")], the only separator the code splits on. *)
Definition SplitLines (s : string) : list string :=
  splitOn (ascii_of_nat 10) EmptyString s.

(** No byte of the text is a newline. *)
Fixpoint oneLine (s : string) : bool :=
  match s with
  | EmptyString => true
  | String c s' => negb (Ascii.eqb c (ascii_of_nat 10)) && oneLine s'
  end.

End strings.

(** ** [strconv.Itoa] *)

Module strconv.

(** [strconv.Itoa(i)]: the decimal rendering of [i], a minus sign first
    when it is negative. *)
Definition Itoa (i : Z) : string :=
  DecimalString.NilZero.string_of_int (Z.to_int i).

End strconv.

(** ** The job aggregate *)

Module job.

(** Free-form custom data: Go's [interface{}] as decoded from JSON (a
    [map[string]interface{}], a slice, a string, a number, nil). *)
Inductive CustomData : Type :=
| CDNil
| CDBool (b : bool)
| CDNumber (n : Z)
| CDString (s : string)
| CDSlice (l : list CustomData)
| CDMap (m : list (string * CustomData)).

(** Lookup in a [map[string]interface{}]. *)
Fixpoint mapLookup {A : Type} (k : string) (m : list (string * A)) : option A :=
  match m with
  | [] => None
  | (k', v) :: rest => if String.eqb k k' then Some v else mapLookup k rest
  end.

(** Modelled from the spec: the [job] package is not under src/.  A
    network interface of a hardware record: MAC, IP and the per-interface
    netboot-allow flag (section 3, HardwareRecord). *)
Record Interface : Type := mkInterface {
  ifMAC : string;
  ifIP : string;
  ifAllowPXE : bool
}.

(** Modelled from the spec: the hardware record of section 3: identifier,
    facility code, plan (hardware family) slug, OS slug, distro and version,
    interfaces, custom data, boot-drive hint, and the instance's identifier,
    crypted root password and plain password. *)
Record HardwareRecord : Type := mkHardware {
  hwID : string;
  hwFacilityCode : string;
  hwPlanSlug : string;
  hwOSSlug : string;
  hwOSDistro : string;
  hwOSVersion : string;
  hwInterfaces : list Interface;
  hwCustomData : CustomData;
  hwBootDriveHint : string;
  hwInstanceID : string;
  hwCryptedPassword : string;
  hwPassword : string;
  hwIPXEScriptURL : string
}.

(** Modelled from the spec: the Job of section 3: the hardware record (absent
    when the inventory holds none), the MAC of the resolving interface and
    the workflow-capability flag. *)
Record Job : Type := mkJob {
  hardware : option HardwareRecord;
  mac : string;
  canWorkflow : bool
}.

Definition field {A : Type} (f : HardwareRecord -> A) (d : A) (j : Job) : A :=
  match hardware j with
  | Some h => f h
  | None => d
  end.

Definition PlanSlug : Job -> string := field hwPlanSlug EmptyString.
Definition FacilityCode : Job -> string := field hwFacilityCode EmptyString.
Definition BootDriveHint : Job -> string := field hwBootDriveHint EmptyString.
Definition CryptedPassword : Job -> string := field hwCryptedPassword EmptyString.
Definition GetCustomData : Job -> CustomData := field hwCustomData CDNil.
Definition HardwareID : Job -> string := field hwID EmptyString.
Definition InstanceID : Job -> string := field hwInstanceID EmptyString.
Definition IPXEScriptURL : Job -> string := field hwIPXEScriptURL EmptyString.
Definition CanWorkflow (j : Job) : bool := canWorkflow j.

(** The interface a job resolved through: the one carrying the job's MAC. *)
Fixpoint findInterface (m : string) (l : list Interface) : option Interface :=
  match l with
  | [] => None
  | i :: rest => if String.eqb (ifMAC i) m then Some i else findInterface m rest
  end.

(** Modelled from the spec: [AllowPXE()] is not under src/.  Section 4.1:
    true only if the resolving interface's explicit netboot-allow flag is
    true and a hardware record exists at all. *)
Definition AllowPXE (j : Job) : bool :=
  match hardware j with
  | None => false
  | Some h =>
      match findInterface (mac j) (hwInterfaces h) with
      | Some i => ifAllowPXE i
      | None => false
      end
  end.

(** [job.NewMock(t, slug, facility)]: a job over one hardware record.  The
    mock's crypted root password is "insecure" whatever [SetPassword] is
    given: [TestScriptKickstart] sets "password" and its golden file reads
    [rootpw --iscrypted insecure]. *)
Definition Mock (slug facility : string) : Job :=
  {| hardware := Some {| hwID := EmptyString;
                         hwFacilityCode := facility;
                         hwPlanSlug := slug;
                         hwOSSlug := EmptyString;
                         hwOSDistro := EmptyString;
                         hwOSVersion := EmptyString;
                         hwInterfaces := [];
                         hwCustomData := CDNil;
                         hwBootDriveHint := EmptyString;
                         hwInstanceID := EmptyString;
                         hwCryptedPassword := "insecure";
                         hwPassword := EmptyString;
                         hwIPXEScriptURL := EmptyString |};
     mac := EmptyString;
     canWorkflow := false |}.

(** The setters of the mock the tests call. *)
Definition update (f : HardwareRecord -> HardwareRecord) (j : Job) : Job :=
  {| hardware := option_map f (hardware j);
     mac := mac j;
     canWorkflow := canWorkflow j |}.

Definition SetBootDriveHint (hint : string) : Job -> Job :=
  update (fun h =>
    {| hwID := hwID h; hwFacilityCode := hwFacilityCode h; hwPlanSlug := hwPlanSlug h;
       hwOSSlug := hwOSSlug h; hwOSDistro := hwOSDistro h; hwOSVersion := hwOSVersion h;
       hwInterfaces := hwInterfaces h; hwCustomData := hwCustomData h; hwBootDriveHint := hint;
       hwInstanceID := hwInstanceID h; hwCryptedPassword := hwCryptedPassword h; hwPassword := hwPassword h;
       hwIPXEScriptURL := hwIPXEScriptURL h |}).

Definition SetPassword (password : string) : Job -> Job :=
  update (fun h =>
    {| hwID := hwID h; hwFacilityCode := hwFacilityCode h; hwPlanSlug := hwPlanSlug h;
       hwOSSlug := hwOSSlug h; hwOSDistro := hwOSDistro h; hwOSVersion := hwOSVersion h;
       hwInterfaces := hwInterfaces h; hwCustomData := hwCustomData h; hwBootDriveHint := hwBootDriveHint h;
       hwInstanceID := hwInstanceID h; hwCryptedPassword := hwCryptedPassword h; hwPassword := password;
       hwIPXEScriptURL := hwIPXEScriptURL h |}).

Definition SetCustomData (customData : CustomData) : Job -> Job :=
  update (fun h =>
    {| hwID := hwID h; hwFacilityCode := hwFacilityCode h; hwPlanSlug := hwPlanSlug h;
       hwOSSlug := hwOSSlug h; hwOSDistro := hwOSDistro h; hwOSVersion := hwOSVersion h;
       hwInterfaces := hwInterfaces h; hwCustomData := customData; hwBootDriveHint := hwBootDriveHint h;
       hwInstanceID := hwInstanceID h; hwCryptedPassword := hwCryptedPassword h; hwPassword := hwPassword h;
       hwIPXEScriptURL := hwIPXEScriptURL h |}).

Definition SetIPXEScriptURL (url : string) : Job -> Job :=
  update (fun h =>
    {| hwID := hwID h; hwFacilityCode := hwFacilityCode h; hwPlanSlug := hwPlanSlug h;
       hwOSSlug := hwOSSlug h; hwOSDistro := hwOSDistro h; hwOSVersion := hwOSVersion h;
       hwInterfaces := hwInterfaces h; hwCustomData := hwCustomData h; hwBootDriveHint := hwBootDriveHint h;
       hwInstanceID := hwInstanceID h; hwCryptedPassword := hwCryptedPassword h; hwPassword := hwPassword h;
       hwIPXEScriptURL := url |}).

Definition SetOSSlug (slug : string) : Job -> Job :=
  update (fun h =>
    {| hwID := hwID h; hwFacilityCode := hwFacilityCode h; hwPlanSlug := hwPlanSlug h;
       hwOSSlug := slug; hwOSDistro := hwOSDistro h; hwOSVersion := hwOSVersion h;
       hwInterfaces := hwInterfaces h; hwCustomData := hwCustomData h; hwBootDriveHint := hwBootDriveHint h;
       hwInstanceID := hwInstanceID h; hwCryptedPassword := hwCryptedPassword h; hwPassword := hwPassword h;
       hwIPXEScriptURL := hwIPXEScriptURL h |}).

Definition SetMAC (m : string) (j : Job) : Job :=
  let j' := update (fun h =>
    {| hwID := hwID h; hwFacilityCode := hwFacilityCode h; hwPlanSlug := hwPlanSlug h;
       hwOSSlug := hwOSSlug h; hwOSDistro := hwOSDistro h; hwOSVersion := hwOSVersion h;
       hwInterfaces := [mkInterface m EmptyString false]; hwCustomData := hwCustomData h; hwBootDriveHint := hwBootDriveHint h;
       hwInstanceID := hwInstanceID h; hwCryptedPassword := hwCryptedPassword h; hwPassword := hwPassword h;
       hwIPXEScriptURL := hwIPXEScriptURL h |}) j in
  {| hardware := hardware j'; mac := m; canWorkflow := canWorkflow j' |}.

End job.

(** ** The VMware installer: first disk and kickstart *)

Module vmware.
Import job.

(** The rows of [TestFirstDisk]: slug, hint, want. *)
Definition TestFirstDisk_rows : list (string * string * string) :=
  [ ("", "", "");
    ("", "hint", "hint");
    ("baremetal_5", "", "");
    ("baremetal_5", "hint", "hint");
    ("c1.small.x86", "hint", "hint");
    ("c1.xlarge.x86", "hint", "hint");
    ("c2.medium.x86", "hint", "hint");
    ("g2.large.x86", "hint", "hint");
    ("m1.xlarge.x86", "hint", "hint");
    ("m1.xlarge.x86:baremetal_2_04", "hint", "hint");
    ("m2.xlarge.x86", "hint", "hint");
    ("n2.xlarge.x86", "hint", "hint");
    ("n2.xlarge.google", "hint", "hint");
    ("s1.large.x86", "hint", "hint");
    ("w1.large.x86", "hint", "hint");
    ("t1.small.x86", "hint", "hint");
    ("x1.small.x86", "hint", "hint");
    ("arbitrary_name", "hint", "hint");
    ("x2.xlarge.x86", "hint", "hint");
    ("n3.xlarge.x86", "KXG60ZNV256G TOSHIBA", "KXG60ZNV256G TOS") ].

(** The [diskConfigs] rows of [TestScriptKickstart]: slug, hint, want. *)
Definition TestScriptKickstart_rows : list (string * string * string) :=
  [ ("", "", "");
    ("", "hint", "hint");
    ("baremetal_5", "", "");
    ("baremetal_5", "hint", "hint");
    ("c1.small.x86", "hint", "hint");
    ("c1.xlarge.x86", "hint", "hint");
    ("c2.medium.x86", "hint", "hint");
    ("c3.medium.x86", "", "vmw_ahci,lsi_mr3,lsi_msgpt3");
    ("g2.large.x86", "hint", "hint");
    ("m1.xlarge.x86", "hint", "hint");
    ("m1.xlarge.x86:baremetal_2_04", "hint", "hint");
    ("m2.xlarge.x86", "hint", "hint");
    ("n2.xlarge.x86", "hint", "hint");
    ("n2.xlarge.google", "hint", "hint");
    ("s1.large.x86", "", "vmw_ahci");
    ("s1.large.x86", "hint", "hint");
    ("s3.xlarge.x86:s3.xlarge.x86.01", "hint", "hint");
    ("s3.xlarge.x86:s3.xlarge.x86.01", "", "KXG50ZNV256G_TOSHIBA,vmw_ahci");
    ("s3.xlarge.x86", "", "vmw_ahci,lsi_mr3,lsi_msgpt3");
    ("w1.large.x86", "", "");
    ("w1.large.x86", "hint", "hint");
    ("arbitrary_name", "hint", "hint");
    ("t1.small.x86", "hint", "hint");
    ("x1.small.x86", "hint", "hint");
    ("x2.xlarge.x86", "hint", "hint") ].

(** Modelled from the spec: the family table of [firstDisk] is not under
    src/.  Section 4.4: the family slug maps through a fixed table to a
    driver-list string; the entries are those the tests' rows with an empty
    hint fix. *)
Definition familyTable : list (string * string) :=
  [ ("c3.medium.x86", "vmw_ahci,lsi_mr3,lsi_msgpt3");
    ("s1.large.x86", "vmw_ahci");
    ("s3.xlarge.x86", "vmw_ahci,lsi_mr3,lsi_msgpt3");
    ("s3.xlarge.x86:s3.xlarge.x86.01", "KXG50ZNV256G_TOSHIBA,vmw_ahci") ].

Definition familyDefault (slug : string) : string :=
  match mapLookup slug familyTable with
  | Some d => d
  | None => EmptyString
  end.

(** The hint as the installer can use it: its first 16 bytes, as the last
    row of [TestFirstDisk] expects. *)
Definition hintPrefix (hint : string) : string := substring 0 16 hint.

(** Modelled from the spec: [firstDisk] is not under src/.  Section 4.4: a
    pure function of (hardware family slug, boot-drive hint); a supplied
    hint wins, otherwise the family table decides, with the empty string
    for families it does not list.  The hint is cut to 16 bytes, which
    [TestFirstDisk] fixes. *)
Definition firstDisk (j : Job) : string :=
  let hint := BootDriveHint j in
  if String.eqb hint EmptyString then familyDefault (PlanSlug j)
  else hintPrefix hint.

(** One row of either test, run as the test runs it. *)
Definition runRow (row : string * string * string) : bool :=
  let '(slug, hint, want) := row in
  String.eqb (firstDisk (SetBootDriveHint hint (Mock slug "ewr1"))) want.

(** A job of [TestFirstDisk]: family "n3.xlarge.x86" with a 20-byte hint. *)
Definition toshibaJob : Job :=
  SetBootDriveHint "KXG60ZNV256G TOSHIBA" (Mock "n3.xlarge.x86" "ewr1").

(** Modelled from the spec: the root password of [genKickstart] is not
    under src/.  Section 4.4: the custom-data override takes precedence over
    the instance's default password, falling back to the default on any
    type mismatch or missing key. *)
Definition rootpw (j : Job) : string :=
  match GetCustomData j with
  | CDMap m =>
      match mapLookup "rootpwcrypt" m with
      | Some (CDString s) => s
      | _ => CryptedPassword j
      end
  | _ => CryptedPassword j
  end.

(** The kickstart's command section, as the golden file
    [testdata/ks_vmw_ahci.txt] has it (lines 1 to 10), with the job's
    values in place of the test's.  [diskArg] is how the install line names
    the chosen disk: the golden file has it for one disk only
    ([--firstdisk="vmw_ahci"]), so it stays a parameter. *)
Definition kickstartCommands (diskArg : string -> string) (j : Job)
  : list string :=
  [ EmptyString;
    "# Accept the VMware End User License Agreement";
    "vmaccepteula";
    "# Set the root password for the DCUI and Tech Support Mode";
    "rootpw --iscrypted " ++ rootpw j;
    "# The install media is in the CD-ROM drive";
    "install --firstdisk" ++ diskArg (firstDisk j) ++ " --overwritevmfs";
    "# Set the network to DHCP on the proper network adapter based on its type";
    "network --bootproto=dhcp --device=" ++ mac j;
    "reboot" ].

(** The way the golden file names a disk. *)
Definition quotedDisk (disk : string) : string := "=" ++ dq ++ disk ++ dq.

(** The rest of the golden file (lines 11 to 316); [fqdn] stands where the
    file has [conf.PublicFQDN] as the test sets it. *)
Definition kickstartBody (fqdn : string) : list string :=
  [ EmptyString;
    "%firstboot --interpreter=busybox";
    "echo " ++ dq ++ "Packet firstboot executed" ++ dq ++ " > /packet-firstboot.log";
    "echo " ++ dq ++ "Packet firstboot executed" ++ dq ++ " > /var/log/packet-firstboot.log";
    "# Fetch packet MD";
    "wget http://metadata.packet.net/metadata -O /tmp/metadata";
    "uuid=$(cat /tmp/metadata | python -c " ++ dq ++ "import sys, json; print(json.load(sys.stdin)['id'])" ++ dq ++ ")";
    "hostname=$(cat /tmp/metadata | python -c " ++ dq ++ "import sys, json; print(json.load(sys.stdin)['hostname'])" ++ dq ++ ")";
    "# Set hostname";
    "esxcli system hostname set --fqdn=$hostname";
    "# Enable shell";
    "vim-cmd hostsvc/enable_esx_shell";
    "vim-cmd hostsvc/start_esx_shell";
    "# Add private network interface";
    "esxcli network vswitch standard portgroup add --portgroup-name='Private Network' --vswitch-name=vSwitch0";
    "esxcli network ip interface add --interface-name=vmk1 --portgroup-name='Private Network'";
    "# Set the iSCSI IQN";
    "iqn=$(cat /tmp/metadata | python -c " ++ dq ++ "import sys, json; print(json.load(sys.stdin)['iqn'])" ++ dq ++ ")";
    "esxcli iscsi software set --enabled=true";
    "esxcli iscsi adapter set -A vmhba64 -n $iqn";
    "esxcli iscsi networkportal add -n vmk1 -A vmhba64";
    "# Configure IP addresses statically from metadata using python";
    "cat >> /tmp/netcfg.py <<EOF";
    "import sys";
    "import json";
    "import subprocess";
    "def exec(cmd):";
    "  print(cmd + " ++ dq ++ "\n" ++ dq ++ ")";
    "  subprocess.call(cmd, shell=True)";
    "with open('/tmp/metadata', 'r') as json_file:";
    "  packet_metadata = json.load(json_file)";
    EmptyString;
    "try:";
    "  netcfg_mgmt_type = packet_metadata['customdata']['network']['management_ip_type']";
    "except:";
    "  netcfg_mgmt_type = " ++ dq ++ "Null" ++ dq;
    EmptyString;
    "private_subnets = packet_metadata.get('private_subnets')";
    "if private_subnets is None:";
    "  private_subnets = ['10.0.0.0/8']";
    EmptyString;
    "if netcfg_mgmt_type == " ++ dq ++ "public" ++ dq ++ ":";
    "  print (" ++ dq ++ "Custom data management IP type is set private for this instance...\n" ++ dq ++ ")";
    EmptyString;
    "  for addr in packet_metadata['network']['addresses']:";
    "    if addr['public'] == True:";
    "      interface = " ++ dq ++ "vmk0" ++ dq;
    "    else:";
    "      next";
    "    if addr['address_family'] == 4:";
    "      exec(" ++ dq ++ "esxcli network ip interface ipv4 set -i " ++ dq ++ " + interface + " ++ dq ++ " -t static -I " ++ dq ++ " + addr['address'] + " ++ dq ++ " -N " ++ dq ++ " + addr['netmask'] + " ++ dq ++ " -g " ++ dq ++ " + addr['gateway'])";
    "    elif addr['address_family'] == 6:";
    "      exec(" ++ dq ++ "esxcli network ip interface ipv6 set -i " ++ dq ++ " + interface + " ++ dq ++ " -e true" ++ dq ++ ")";
    "      exec(" ++ dq ++ "esxcli network ip interface ipv6 address add -i " ++ dq ++ " + interface + " ++ dq ++ " -I " ++ dq ++ " + addr['address'] + " ++ dq ++ "/" ++ dq ++ " + str(addr['cidr']))";
    "      exec(" ++ dq ++ "esxcli network ip interface ipv6 set -i " ++ dq ++ " + interface + " ++ dq ++ " -g " ++ dq ++ " + addr['gateway'])";
    "    else:";
    "      print(" ++ dq ++ "Skipping unknown address_family [" ++ dq ++ " + addr['address_family'] +" ++ dq ++ "]\n" ++ dq ++ ")";
    EmptyString;
    "elif netcfg_mgmt_type == " ++ dq ++ "private" ++ dq ++ ":";
    "  print (" ++ dq ++ "Custom data management IP type is set private for this instance...\n" ++ dq ++ ")";
    EmptyString;
    "  for addr in packet_metadata['network']['addresses']:";
    "    if addr['public'] == True:";
    "      next";
    "    else:";
    "      interface = " ++ dq ++ "vmk0" ++ dq;
    "    if addr['address_family'] == 4:";
    "      interface = " ++ dq ++ "vmk0" ++ dq;
    "      exec(" ++ dq ++ "esxcli network ip interface ipv4 set -i " ++ dq ++ " + interface + " ++ dq ++ " -t static -I " ++ dq ++ " + addr['address'] + " ++ dq ++ " -N " ++ dq ++ " + addr['netmask'] + " ++ dq ++ " -g " ++ dq ++ " + addr['gateway'])";
    "    elif addr['address_family'] == 6:";
    "      exec(" ++ dq ++ "esxcli network ip interface ipv6 set -i " ++ dq ++ " + interface + " ++ dq ++ " -e true" ++ dq ++ ")";
    "      exec(" ++ dq ++ "esxcli network ip interface ipv6 address add -i " ++ dq ++ " + interface + " ++ dq ++ " -I " ++ dq ++ " + addr['address'] + " ++ dq ++ "/" ++ dq ++ " + str(addr['cidr']))";
    "      exec(" ++ dq ++ "esxcli network ip interface ipv6 set -i " ++ dq ++ " + interface + " ++ dq ++ " -g " ++ dq ++ " + addr['gateway'])";
    "    else:";
    "      print(" ++ dq ++ "Skipping unknown address_family [" ++ dq ++ " + addr['address_family'] +" ++ dq ++ "]\n" ++ dq ++ ")";
    EmptyString;
    "    exec(" ++ dq ++ "esxcli network ip set --ipv6-enabled=false" ++ dq ++ ")";
    EmptyString;
    "elif netcfg_mgmt_type == " ++ dq ++ "both" ++ dq ++ " or netcfg_mgmt_type == " ++ dq ++ "Null" ++ dq ++ ":";
    "  print (" ++ dq ++ "Custom data management IP type is set " ++ dq ++ " + netcfg_mgmt_type + " ++ dq ++ ". Configuring both as default for this instance...\n" ++ dq ++ ")";
    EmptyString;
    "  for addr in packet_metadata['network']['addresses']:";
    "    if addr['public'] == True:";
    "      interface = " ++ dq ++ "vmk0" ++ dq;
    "    else:";
    "      interface = " ++ dq ++ "vmk1" ++ dq;
    "    if addr['address_family'] == 4:";
    "      if interface == " ++ dq ++ "vmk1" ++ dq ++ ":";
    "        exec(" ++ dq ++ "esxcli network ip interface ipv4 set -i " ++ dq ++ " + interface + " ++ dq ++ " -t static -I " ++ dq ++ " + addr['address'] + " ++ dq ++ " -N " ++ dq ++ " + addr['netmask'])";
    "        for route in private_subnets:";
    "          exec(" ++ dq ++ "esxcli network ip route ipv4 add --gateway " ++ dq ++ " + addr['gateway'] + " ++ dq ++ " --network " ++ dq ++ " + route)";
    "      else:";
    "        exec(" ++ dq ++ "esxcli network ip interface ipv4 set -i " ++ dq ++ " + interface + " ++ dq ++ " -t static -I " ++ dq ++ " + addr['address'] + " ++ dq ++ " -N " ++ dq ++ " + addr['netmask'] + " ++ dq ++ " -g " ++ dq ++ " + addr['gateway'])";
    "    elif addr['address_family'] == 6:";
    "      exec(" ++ dq ++ "esxcli network ip interface ipv6 set -i " ++ dq ++ " + interface + " ++ dq ++ " -e true" ++ dq ++ ")";
    "      exec(" ++ dq ++ "esxcli network ip interface ipv6 address add -i " ++ dq ++ " + interface + " ++ dq ++ " -I " ++ dq ++ " + addr['address'] + " ++ dq ++ "/" ++ dq ++ " + str(addr['cidr']))";
    "      exec(" ++ dq ++ "esxcli network ip interface ipv6 set -i " ++ dq ++ " + interface + " ++ dq ++ " -g " ++ dq ++ " + addr['gateway'])";
    "    else:";
    "      print(" ++ dq ++ "Skipping unknown address_family [" ++ dq ++ " + addr['address_family'] +" ++ dq ++ "]\n" ++ dq ++ ")";
    EmptyString;
    "if netcfg_mgmt_type == " ++ dq ++ "manual" ++ dq ++ ":";
    "  print (" ++ dq ++ "Custom data management IP type manual set for this instance...\n" ++ dq ++ ")";
    "  network = packet_metadata['customdata']['network']";
    "  exec(" ++ dq ++ "esxcli network ip interface ipv4 set -i " ++ dq ++ " + network['interface'] + " ++ dq ++ " -t static -I " ++ dq ++ " + network['ipv4_address'] + " ++ dq ++ " -N " ++ dq ++ " + network['ipv4_netmask'] + " ++ dq ++ " -g " ++ dq ++ " + network['ipv4_gateway'])";
    "  exec(" ++ dq ++ "esxcli network vswitch standard portgroup set -p=\" ++ dq ++ "Management Network\" ++ dq ++ " -v=" ++ dq ++ " + network['ipv4_vlan'])";
    "  exec(" ++ dq ++ "esxcli network ip set --ipv6-enabled=false" ++ dq ++ ")";
    EmptyString;
    "if netcfg_mgmt_type == " ++ dq ++ "dhcp" ++ dq ++ ":";
    "  print (" ++ dq ++ "Custom data management IP type DHCP set for this instance. Nothing to do...\n" ++ dq ++ ")";
    EmptyString;
    "else:";
    "  print (" ++ dq ++ "Custom data management IP type NOT set for this instance...\n" ++ dq ++ ")";
    "EOF";
    "cat << 'EOF' > /tmp/customize.sh";
    "#/bin/sh";
    "metadata=/tmp/metadata";
    EmptyString;
    "custom_data () {";
    "        python -c " ++ dq ++ "import json; print(json.load(open('$metadata'))['customdata']$1)" ++ dq ++ " 2>/dev/null";
    "        RESULT=$?";
    "        if [ $RESULT -eq 0 ]; then";
    "                return";
    "        else";
    "                echo " ++ dq ++ "null" ++ dq;
    "        fi";
    "}";
    EmptyString;
    "## TODO: Consider validating customdata, but maybe the API is a better place for that";
    EmptyString;
    "sshset=$(custom_data " ++ dq ++ "['sshd']['enabled']" ++ dq ++ ")";
    "sshpwauth=$(custom_data " ++ dq ++ "['sshd']['pwauth']" ++ dq ++ ")";
    "esxishellset=$(custom_data " ++ dq ++ "['esxishell']['enabled']" ++ dq ++ ")";
    "kickstartfburl=$(custom_data " ++ dq ++ "['kickstart']['firstboot_url']" ++ dq ++ ")";
    "kickstartfbshell=$(custom_data " ++ dq ++ "['kickstart']['firstboot_shell']" ++ dq ++ ")";
    "kickstartfbshellcmd=$(custom_data " ++ dq ++ "['kickstart']['firstboot_shell_cmd']" ++ dq ++ ")";
    EmptyString;
    "# SSHd config";
    "if [ " ++ dq ++ "$sshset" ++ dq ++ " == " ++ dq ++ "true" ++ dq ++ " ]; then";
    tab ++ "echo " ++ dq ++ "Enabling SSHd" ++ dq;
    tab ++ "vim-cmd hostsvc/enable_ssh";
    tab ++ "wget -q http://metadata.packet.net/2009-04-04/meta-data/public-keys -O /etc/ssh/keys-root/authorized_keys";
    "elif [ " ++ dq ++ "$sshset" ++ dq ++ " == " ++ dq ++ "false" ++ dq ++ " ]; then";
    tab ++ "echo " ++ dq ++ "Disabling SSHd" ++ dq;
    tab ++ "vim-cmd hostsvc/disable_ssh";
    "else";
    tab ++ "echo " ++ dq ++ "Skipping SSHd config" ++ dq;
    "fi";
    EmptyString;
    "# SSHd pass auth config";
    "if [ " ++ dq ++ "$sshpwauth" ++ dq ++ " == " ++ dq ++ "true" ++ dq ++ " ]; then";
    tab ++ "echo " ++ dq ++ "Enabling SSHd password auth" ++ dq;
    tab ++ "sed -i 's/ChallengeResponseAuthentication no/ChallengeResponseAuthentication yes/g' /etc/ssh/sshd_config";
    "elif [ " ++ dq ++ "$sshpwauth" ++ dq ++ " == " ++ dq ++ "false" ++ dq ++ " ]; then";
    tab ++ "echo " ++ dq ++ "Disabling SSHd password auth and force keys (default)" ++ dq;
    tab ++ "echo 'ChallengeResponseAuthentication no' >> /etc/ssh/sshd_config";
    "else";
    "        echo " ++ dq ++ "Skipping SSHd password auth config" ++ dq;
    "fi";
    EmptyString;
    "# ESXishell config";
    "if [ " ++ dq ++ "$esxishellset" ++ dq ++ " == " ++ dq ++ "true" ++ dq ++ " ]; then";
    tab ++ "echo " ++ dq ++ "Enabling ESXishell" ++ dq;
    tab ++ "vim-cmd hostsvc/enable_esx_shell";
    tab ++ "vim-cmd hostsvc/start_esx_shell";
    "elif [ " ++ dq ++ "$esxishellset" ++ dq ++ " == " ++ dq ++ "false" ++ dq ++ " ]; then";
    tab ++ "echo " ++ dq ++ "Disabling ESXishell" ++ dq;
    tab ++ "vim-cmd hostsvc/disable_esx_shell";
    tab ++ "vim-cmd hostsvc/stop_esx_shell";
    "else";
    tab ++ "echo " ++ dq ++ "Skipping ESXishell config" ++ dq;
    "fi";
    EmptyString;
    "# Kickstart firstboot supplemental config URL";
    "if [ " ++ dq ++ "$kickstartfburl" ++ dq ++ " != " ++ dq ++ "null" ++ dq ++ " ]; then";
    tab ++ "echo " ++ dq ++ "Using supplemental kickstart firstboot URL: $kickstartfburl" ++ dq;
    tab ++ "if wget -q " ++ dq ++ "$kickstartfburl" ++ dq ++ " -O /tmp/ks-firstboot-sup.sh; then";
    tab ++ tab ++ "echo " ++ dq ++ "========Begin execution of supplemental firstboot kickstart" ++ dq;
    tab ++ tab ++ "chmod +x /tmp/ks-firstboot-sup.sh && /tmp/ks-firstboot-sup.sh";
    tab ++ tab ++ "echo " ++ dq ++ "========End execution of supplemental firstboot kickstart" ++ dq;
    tab ++ "else";
    tab ++ tab ++ "echo " ++ dq ++ "ERROR: Custom kickstart firstboot URL '$kickstartfburl' is NOT accessible!" ++ dq;
    tab ++ tab ++ "exit 1";
    tab ++ "fi";
    "else";
    tab ++ "echo " ++ dq ++ "Skipping supplemental kickstart firstboot URL" ++ dq;
    "fi";
    EmptyString;
    "# Kickstart firstboot supplemental shell commands";
    "if [ " ++ dq ++ "$kickstartfbshellcmd" ++ dq ++ " != " ++ dq ++ "null" ++ dq ++ " ]; then";
    "        echo " ++ dq ++ "Using kickstart firstboot shell command(s)" ++ dq;
    tab ++ "if [ " ++ dq ++ "$kickstartfbshell" ++ dq ++ " != " ++ dq ++ "null" ++ dq ++ " ]; then";
    tab ++ tab ++ "cmdshell=" ++ dq ++ "$kickstartfbshell" ++ dq;
    "#" ++ tab ++ tab ++ "echo " ++ dq ++ "Shell kickstartfbshell is: $kickstartfbshell" ++ dq;
    tab ++ "else";
    tab ++ tab ++ "cmdshell = " ++ dq ++ "/bin/sh -C" ++ dq;
    tab ++ "fi";
    EmptyString;
    tab ++ "echo " ++ dq ++ "$kickstartfbshellcmd" ++ dq ++ " > /tmp/fbshell.sh";
    tab ++ "chmod +x /tmp/fbshell.sh";
    tab ++ "echo " ++ dq ++ "========Begin execution of supplemental firstboot shell commands" ++ dq;
    tab ++ "cmdoutput=$($cmdshell /tmp/fbshell.sh)";
    tab ++ "echo " ++ dq ++ "${cmdoutput}" ++ dq;
    tab ++ "echo " ++ dq ++ "========End execution of supplemental firstboot shell commands" ++ dq;
    "else";
    tab ++ "echo " ++ dq ++ "Skipping kickstart firstboot shell command(s)" ++ dq;
    "fi";
    "EOF";
    "python /tmp/netcfg.py";
    "# Setup public SSH key auth for root";
    "wget http://metadata.packet.net/2009-04-04/meta-data/public-keys -O /etc/ssh/keys-root/authorized_keys";
    "# Disable SSH password auth and force public key auth";
    "echo 'ChallengeResponseAuthentication no' >> /etc/ssh/sshd_config";
    "# Enable ssh";
    "vim-cmd hostsvc/enable_ssh";
    "# Ensure serial port is activated";
    "esxcli system settings kernel set -s logPort -v none";
    "esxcli system settings kernel set -s gdbPort -v none";
    "esxcli system settings kernel set -s tty2Port -v com2";
    "# Execute customization script after the above vim-cmds, etc run as default";
    "chmod +x /tmp/customize.sh";
    "sh /tmp/customize.sh > /var/log/firstboot-customize.log";
    "# Phone home to Packet for device activation";
    "echo " ++ dq ++ "Tinkerbell: " ++ fqdn ++ dq ++ " > /tmp/firstboot-packet.log";
    "echo " ++ dq ++ "UUID: $uuid" ++ dq ++ " >> /tmp/firstboot-packet.log";
    "BODY='{" ++ dq ++ "instance_id" ++ dq ++ ":" ++ dq ++ "$uuid" ++ dq ++ "}'";
    "BODY_LEN=$( echo -n ${BODY} | wc -c )";
    "echo -ne " ++ dq ++ "POST /phone-home HTTP/1.0\r\nHost: " ++ fqdn ++ "\r\nContent-Type: application/json\r\nContent-Length: ${BODY_LEN}\r\n\r\n${BODY}" ++ dq ++ " | nc -i 3 " ++ fqdn ++ " 80 > /tmp/firstboot-phone-home.log";
    "reboot";
    EmptyString;
    "%post --interpreter=busybox";
    "cat << 'EOF' > /tmp/customize-pi.sh";
    "#/bin/sh";
    "metadata=/tmp/metadata";
    "wget http://metadata.packet.net/metadata -O $metadata";
    EmptyString;
    "custom_data () {";
    "        python -c " ++ dq ++ "import json; print(json.load(open('$metadata'))['customdata']$1)" ++ dq ++ " 2>/dev/null";
    "        RESULT=$?";
    "        if [ $RESULT -eq 0 ]; then";
    "                return";
    "        else";
    "                echo " ++ dq ++ "null" ++ dq;
    "        fi";
    "}";
    EmptyString;
    "kickstartpiurl=$(custom_data " ++ dq ++ "['kickstart']['postinstall_url']" ++ dq ++ ")";
    "kickstartpishell=$(custom_data " ++ dq ++ "['kickstart']['postinstall_shell']" ++ dq ++ ")";
    "kickstartpishellcmd=$(custom_data " ++ dq ++ "['kickstart']['postinstall_shell_cmd']" ++ dq ++ ")";
    EmptyString;
    "# Kickstart postinstall supplemental config URL";
    "if [ " ++ dq ++ "$kickstartpiurl" ++ dq ++ " != " ++ dq ++ "null" ++ dq ++ " ]; then";
    tab ++ "echo " ++ dq ++ "Using supplemental kickstart postinstall URL: $kickstartpiurl" ++ dq;
    tab ++ "if wget -q " ++ dq ++ "$kickstartpiurl" ++ dq ++ " -O /tmp/ks-postinstall-sup.sh; then";
    tab ++ tab ++ "echo " ++ dq ++ "========Begin execution of supplemental postinstall kickstart" ++ dq;
    tab ++ tab ++ "chmod +x /tmp/ks-postinstall-sup.sh && /tmp/ks-postinstall-sup.sh";
    tab ++ tab ++ "echo " ++ dq ++ "========End execution of supplemental postinstall kickstart" ++ dq;
    tab ++ "else";
    tab ++ tab ++ "echo " ++ dq ++ "ERROR: Custom kickstart postinstall URL '$kickstartpiurl' is NOT accessible!" ++ dq;
    tab ++ tab ++ "exit 1";
    tab ++ "fi";
    "else";
    tab ++ "echo " ++ dq ++ "Skipping supplemental kickstart postinstall URL" ++ dq;
    "fi";
    EmptyString;
    "# Kickstart postinstall supplemental shell commands";
    "if [ " ++ dq ++ "$kickstartpishellcmd" ++ dq ++ " != " ++ dq ++ "null" ++ dq ++ " ]; then";
    "        echo " ++ dq ++ "Using kickstart postinstall shell command(s)" ++ dq;
    "        if [ " ++ dq ++ "$kickstartpishell" ++ dq ++ " != " ++ dq ++ "null" ++ dq ++ " ]; then";
    "                cmdshell=" ++ dq ++ "$kickstartpishell" ++ dq;
    "        else";
    "                cmdshell = " ++ dq ++ "/bin/sh -C" ++ dq;
    "        fi";
    EmptyString;
    "        echo " ++ dq ++ "$kickstartpishellcmd" ++ dq ++ " > /tmp/customize-pi-cmd.sh";
    "        echo " ++ dq ++ "========Begin execution of supplemental postinstall shell commands" ++ dq;
    "        $cmdshell /tmp/customize-pi-cmd.sh";
    "        echo " ++ dq ++ "========End execution of supplemental postinstall shell commands" ++ dq;
    "else";
    "        echo " ++ dq ++ "Skipping kickstart postinstall shell command(s)" ++ dq;
    "fi";
    "EOF";
    "esxcli system settings kernel set -s logPort -v none";
    "esxcli system settings kernel set -s gdbPort -v none";
    "esxcli system settings kernel set -s tty2Port -v com2";
    "echo " ++ dq ++ "nameserver 147.75.207.207" ++ dq ++ " > /etc/resolv.conf";
    "chmod +x /tmp/customize-pi.sh";
    "sh /tmp/customize-pi.sh > /tmp/customize-pi.log";
    "sleep 60";
    "echo " ++ dq ++ "Tinkerbell: " ++ fqdn ++ dq ++ " > /tmp/post-packet.log";
    "BODY='{" ++ dq ++ "type" ++ dq ++ ":" ++ dq ++ "provisioning.109" ++ dq ++ "}'";
    "BODY_LEN=$( echo -n ${BODY} | wc -c )";
    "echo -ne " ++ dq ++ "POST /phone-home HTTP/1.0\r\nHost: " ++ fqdn ++ "\r\nContent-Type: application/json\r\nContent-Length: ${BODY_LEN}\r\n\r\n${BODY}" ++ dq ++ " | nc -i 3 " ++ fqdn ++ " 80 > /tmp/post-phone-home.log";
    EmptyString;
    "%post --interpreter=busybox --ignorefailure=true";
    "echo " ++ dq ++ "Packet installation postinstall executed" ++ dq ++ " > /packet-pi-ks.log";
    "sleep 20";
    EmptyString;
    "%post --interpreter=busybox --ignorefailure=true";
    "echo " ++ dq ++ "Packet installation postinstall executed" ++ dq ++ " > /packet-pi-ks-nc.log";
    "sleep 20";
    EmptyString;
    "%pre --interpreter=busybox";
    "BOOTOPTIONS=$(/sbin/bootOption -o)";
    "echo $BOOTOPTIONS > /cmdline-bootoption";
    "echo $BOOTOPTIONS > /tmp/pre-bootoptions";
    "sleep 30" ].

(** Modelled from the spec: [genKickstart] is not under src/; its text is
    the golden file's, with the per-job values of section 4.4 (root
    password, first disk, the interface's MAC) and the configured FQDN
    interpolated.  The [strings.Builder] it writes to is the result. *)
Definition genKickstart (fqdn : string) (diskArg : string -> string)
  (j : Job) : string :=
  unlines (kickstartCommands diskArg j) ++ unlines (kickstartBody fqdn).

(** One case of [TestRootpw]: custom data and the password wanted. *)
Definition TestRootpw_cases : list (CustomData * string) :=
  [ (CDNil, "insecure");
    (CDMap [("rootpwcrypt", CDString "override")], "override");
    (CDSlice [CDString "test"], "insecure");
    (CDMap [("rootpwcrypt", CDNumber 4)], "insecure") ].

Definition runRootpw (fqdn : string) (c : CustomData * string) : bool :=
  let '(customData, want) := c in
  let j := SetCustomData customData
             (SetPassword "insecure" (Mock "some.slug" "test-facility")) in
  strings.Contains (genKickstart fqdn quotedDisk j)
    ("rootpw --iscrypted " ++ want).

End vmware.

(** ** iPXE scripts and the custom-iPXE installer *)

Module ipxe.

(** Modelled from the spec: the [ipxe] package is not under src/.  Section
    3: a script is an ordered sequence of text lines built incrementally
    and then serialized; the buffer is the text so far. *)
Definition Script : Type := string.

(** [ipxe.NewScript()]: the header and the echo line every golden script
    starts with. *)
Definition NewScript : Script :=
  "#!ipxe" ++ nl ++ nl ++ "echo Tinkerbell Boots iPXE" ++ nl.

(** [s.Set(name, value)]: a variable assignment. *)
Definition Set_ (s : Script) (name value : string) : Script :=
  s ++ "set " ++ name ++ " " ++ value ++ nl.

(** The text without its last byte. *)
Fixpoint dropLast (s : string) : string :=
  match s with
  | EmptyString => EmptyString
  | String c EmptyString => EmptyString
  | String c s' => String c (dropLast s')
  end.

(** [s.Or(v)]: a fallback joined to the line written last (section 4.3:
    [set a b || shell]). *)
Definition Or (s : Script) (v : string) : Script :=
  dropLast s ++ " || " ++ v ++ nl.

(** [s.PhoneHome(typ)]: the parameter block of the phone-home callback,
    set off by blank lines as the golden script has it. *)
Definition PhoneHome (s : Script) (typ : string) : Script :=
  s ++ nl
    ++ "params" ++ nl
    ++ "param body Device connected to DHCP system" ++ nl
    ++ "param type " ++ typ ++ nl
    ++ "imgfetch ${tinkerbell}/phone-home##params" ++ nl
    ++ "imgfree" ++ nl
    ++ nl.

(** [s.Chain(uri)]: the terminal directive. *)
Definition Chain (s : Script) (uri : string) : Script :=
  s ++ "chain --autofree " ++ uri ++ nl.

(** [s.Bytes()]. *)
Definition Bytes (s : Script) : string := s.

End ipxe.

Module customipxe.
Import job.

(** Modelled from the spec: the installer's [BootScript] is not under src/.
    Section 4.3: after the variables already set, the extra caller-supplied
    key/value pairs in the order supplied, then the phone-home param block,
    then the facility and plan identifiers, then the chain target, here the
    job's script URL.  The script is mutated in place in Go; the new script
    is the result here. *)
Definition BootScript (extraIPXEVars : list (string * string)) (j : Job)
  (s : ipxe.Script) : ipxe.Script :=
  let s := fold_left (fun s kv => ipxe.Set_ s (fst kv) (snd kv))
             extraIPXEVars s in
  let s := ipxe.PhoneHome s "provisioning.104.01" in
  let s := ipxe.Set_ s "packet_facility" (FacilityCode j) in
  let s := ipxe.Set_ s "packet_plan" (PlanSlug j) in
  ipxe.Chain s (IPXEScriptURL j).

(** The [set] lines of the extra variables, in the order supplied. *)
Fixpoint setLines (vars : list (string * string)) : string :=
  match vars with
  | [] => EmptyString
  | (k, v) :: rest => "set " ++ k ++ " " ++ v ++ nl ++ setLines rest
  end.

(** The phone-home param block. *)
Definition paramBlock : string :=
  nl ++ "params" ++ nl
     ++ "param body Device connected to DHCP system" ++ nl
     ++ "param type provisioning.104.01" ++ nl
     ++ "imgfetch ${tinkerbell}/phone-home##params" ++ nl
     ++ "imgfree" ++ nl
     ++ nl.

(** The script as [TestScript] seeds it before the installer runs. *)
Definition seeded (iface tinkerbell syslog_host cloud_config : string)
  : ipxe.Script :=
  let s := ipxe.NewScript in
  let s := ipxe.Set_ s "iface" iface in
  let s := ipxe.Or s "shell" in
  let s := ipxe.Set_ s "tinkerbell" tinkerbell in
  let s := ipxe.Set_ s "syslog_host" syslog_host in
  ipxe.Set_ s "ipxe_cloud_config" cloud_config.

(** What [TestScript] computes as [got] for the plan [typ]. *)
Definition TestScript_got (facility typ : string) : string :=
  let extraIPXEVars :=
    [("dynamic_var1", "dynamic_val1"); ("dynamic_var2", "dynamic_val2")] in
  let m := SetIPXEScriptURL "http://127.0.0.1/fake_ipxe_url"
             (Mock typ facility) in
  let s := seeded "eth0" "http://127.0.0.1" "127.0.0.1" "packet" in
  ipxe.Bytes (BootScript extraIPXEVars m s).

(** [type2Script]: the golden script of plan "c3.small.x86". *)
Definition type2Script (facility : string) : list (string * string) :=
  [ ("c3.small.x86",
     unlines
       [ "#!ipxe";
         EmptyString;
         "echo Tinkerbell Boots iPXE";
         "set iface eth0 || shell";
         "set tinkerbell http://127.0.0.1";
         "set syslog_host 127.0.0.1";
         "set ipxe_cloud_config packet";
         "set dynamic_var1 dynamic_val1";
         "set dynamic_var2 dynamic_val2";
         EmptyString;
         "params";
         "param body Device connected to DHCP system";
         "param type provisioning.104.01";
         "imgfetch ${tinkerbell}/phone-home##params";
         "imgfree";
         EmptyString;
         "set packet_facility " ++ facility;
         "set packet_plan c3.small.x86";
         "chain --autofree http://127.0.0.1/fake_ipxe_url" ]) ].

End customipxe.

(** ** The Flatcar installer's install.service *)

Module flatcar.
Import strings.

(** The base set of starter commands for flatcar installs. *)
Definition baseStart : list string :=
  [ "[Unit]";
    "Requires=systemd-networkd-wait-online.service";
    "After=systemd-networkd-wait-online.service";
    EmptyString;
    "[Service]";
    "Type=oneshot" ].

(** The end of every flatcar install. *)
Definition baseEnd : list string :=
  [ "ExecStart=/usr/bin/systemctl reboot";
    EmptyString;
    "[Install]";
    "WantedBy=multi-user.target";
    EmptyString ].

(** [Exec]: the ExecStart lines of the base family.  [osieURL] is
    [conf.OsieVendorServicesURL], whose value is not under src/. *)
Definition Exec (osieURL : string) : list string :=
  [ "ExecStart=/usr/bin/curl --retry 10 -H " ++ dq
      ++ "Content-Type: application/json" ++ dq ++ " -X POST -d '{" ++ dq
      ++ "type" ++ dq ++ ":" ++ dq ++ "provisioning.106" ++ dq
      ++ "}' ${phone_home_url}";
    "ExecStart=/usr/bin/flatcar-install -V current -C alpha -b " ++ osieURL
      ++ "/flatcar/amd64-usr/alpha -o packet -s";
    "ExecStart=/usr/bin/udevadm settle";
    "ExecStart=/usr/bin/mkdir -p /oemmnt";
    "ExecStart=/usr/bin/mount /dev/disk/by-label/OEM /oemmnt";
    "ExecStart=/usr/bin/bash -c " ++ dq ++ "/usr/bin/echo " ++ bsl ++ dq
      ++ "set linux_console=" ++ bsl ++ bsl ++ bsl ++ dq
      ++ "console=tty0 console=ttyS1,115200n8" ++ bsl ++ bsl ++ bsl ++ dq
      ++ bsl ++ dq ++ " >> /oemmnt/grub.cfg" ++ dq;
    "ExecStart=/usr/bin/curl -H " ++ dq ++ "Content-Type: application/json"
      ++ dq ++ " -X POST -d '{" ++ dq ++ "type" ++ dq ++ ":" ++ dq
      ++ "provisioning.109" ++ dq ++ "}' ${phone_home_url}" ].

(** The loop of [replacer]: the replacements taken two by two, each
    applied to the whole script. *)
Fixpoint replaceEach (script : string) (replacements : list string) : string :=
  match replacements with
  | old :: new :: rest => replaceEach (ReplaceAll script old new) rest
  | _ => script
  end.

(** [replacer(l, replacements...)]: [None] is the panic on an odd number
    of replacements. *)
Definition replacer (l : list string) (replacements : list string)
  : option (list string) :=
  if negb (Nat.eqb (Nat.modulo (List.length replacements) 2) 0) then None
  else Some (SplitLines (replaceEach (Join l nl) replacements)).

(** [script]: the ExecStart lines wanted for each hardware family. *)
Definition script (osieURL : string) : list (string * option (list string)) :=
  [ ("c3.small.x86", Some (Exec osieURL));
    ("s3.xlarge.x86", replacer (Exec osieURL) ["-s"; "-s -e 259"]);
    ("c3.large.arm",
     replacer (Exec osieURL)
       [ " -o packet"; EmptyString;
         "tty0 console=ttyS1,115200n8"; "ttyAMA0,115200";
         "amd64"; "arm64" ]) ].

(** The text [assertLines] compares the unit's contents with. *)
Definition verifyContents (execLines : list string) : string :=
  Join (baseStart ++ execLines ++ baseEnd)%list nl.

(** Modelled from the spec: [configureInstaller] is not under src/.  The
    contents of the install.service unit it produces for a family are the
    text [TestInstaller] asserts them equal to: [baseStart], the family's
    entry of [script], [baseEnd], joined by newlines.  [None]: the family
    has no entry, or building its entry panics. *)
Definition installServiceContents (osieURL typ : string) : option string :=
  match job.mapLookup typ (script osieURL) with
  | Some (Some execLines) => Some (verifyContents execLines)
  | _ => None
  end.

End flatcar.

(** ** The HTTP front ([cmd/boots/http.go]) *)

Module http.

Definition StatusOK : Z := 200.
Definition StatusBadRequest : Z := 400.
Definition StatusNotFound : Z := 404.

End http.

Module boots.
Import job.

(** Go's [error], by its message; [(v, err)] results as a sum. *)
Definition error : Type := string.

Inductive result (A : Type) : Type :=
| Ok (a : A)
| Err (e : error).
Arguments Ok {A} a.
Arguments Err {A} e.

(** [errors.Wrap(err, msg)] and [errors.New(msg)]. *)
Definition Wrap (err : error) (msg : string) : error := msg ++ ": " ++ err.
Definition New (msg : string) : error := msg.

(** What a handler reads of a request: the remote address and the body,
    which may fail to read. *)
Record Request : Type := mkRequest {
  RemoteAddr : string;
  Body : result string
}.

(** What a handler does, in order: writes to the [http.ResponseWriter],
    log lines, the Prometheus counters, calls of job methods that are not
    under src/ (they write the response themselves), the event posted to
    the backend, and a panic. *)
Inductive effect : Type :=
| WriteHeader (code : Z)
| Write (b : string)
| LogError (msg : string)
| LogInfo (msg : string)
| JobsTotalInc (op : string)
| JobsInProgressInc (op : string)
| JobsInProgressDec (op : string)
| ObserveDuration (op : string)
| CallServeFile (j : Job)
| CallAddHardware (j : Job)
| CallServePhoneHomeEndpoint (j : Job) (req : Request)
| CallServeProblemEndpoint (j : Job)
| CallPostInstanceEvent (id : string) (payload : string)
| Panic (msg : string).

(** The collaborators, as the interfaces the handlers call them through:
    [job.Manager.CreateFromRemoteAddr], [client.WorkflowFinder.
    HasActiveWorkflow], [client.HardwareFinder.ByIP] and
    [client.Reporter.PostInstanceEvent]. *)
Definition Manager : Type := string -> result Job.
Definition WorkflowFinder : Type := string -> result bool.

Record Instance : Type := mkInstance { ID : string }.
Record Discoverer : Type := mkDiscoverer { GetInstance : option Instance }.

Definition IP : Type := string.
Definition HardwareFinder : Type := IP -> result Discoverer.
Definition Reporter : Type := string -> string -> result string.

(** [BootsHTTPServer]; [workflowFinder] may be nil. *)
Record BootsHTTPServer : Type := mkServer {
  workflowFinder : option WorkflowFinder;
  reporter : Reporter;
  finder : HardwareFinder;
  jobManager : Manager
}.

(** [jobHandler]; the installers [i] are only handed on to [ServeFile]. *)
Record jobHandler : Type := mkJobHandler {
  handlerJobManager : Manager
}.

(** The counters every job handler starts with, and the two deferred
    calls it ends with (the timer's, deferred last, runs first). *)
Definition started (op : string) : list effect :=
  [JobsTotalInc op; JobsInProgressInc op].
Definition deferred (op : string) : list effect :=
  [ObserveDuration op; JobsInProgressDec op].

(** [serveJobFile]. *)
Definition serveJobFile (h : jobHandler) (req : Request) : list effect :=
  started "file" ++
  match handlerJobManager h (RemoteAddr req) with
  | Err err =>
      [WriteHeader http.StatusNotFound;
       LogError "no job found for client address"]
  | Ok j =>
      if negb (AllowPXE j) then
        [WriteHeader http.StatusNotFound;
         LogInfo "the hardware data for this machine, or lack there of, does not allow it to pxe; allow_pxe: false"]
      else [CallServeFile j]
  end ++ deferred "file".

(** [serveHardware].  A nil [workflowFinder] is dereferenced when the job
    can run workflows: the call panics. *)
Definition serveHardware (s : BootsHTTPServer) (req : Request) : list effect :=
  started "hardware-components" ++
  match jobManager s (RemoteAddr req) with
  | Err err =>
      [WriteHeader http.StatusNotFound;
       LogInfo "no job found for client address"]
  | Ok j =>
      if CanWorkflow j then
        match workflowFinder s with
        | None => [Panic "invalid memory address or nil pointer dereference"]
        | Some hasActiveWorkflow =>
            match hasActiveWorkflow (HardwareID j) with
            | Err err =>
                [WriteHeader http.StatusNotFound;
                 LogInfo "failed to get workflows"]
            | Ok activeWorkflows =>
                if negb activeWorkflows then
                  [WriteHeader http.StatusNotFound;
                   LogInfo "no active workflows"]
                else [CallAddHardware j]
            end
        end
      else [CallAddHardware j]
  end ++ deferred "hardware-components".

(** [servePhoneHome]. *)
Definition servePhoneHome (s : BootsHTTPServer) (req : Request) : list effect :=
  started "phone-home" ++
  match jobManager s (RemoteAddr req) with
  | Err err =>
      [WriteHeader http.StatusOK;
       LogInfo "no job found for client address"]
  | Ok j => [CallServePhoneHomeEndpoint j req]
  end ++ deferred "phone-home".

(** [serveProblem]. *)
Definition serveProblem (s : BootsHTTPServer) (req : Request) : list effect :=
  started "problem" ++
  match jobManager s (RemoteAddr req) with
  | Err err =>
      [WriteHeader http.StatusNotFound;
       LogInfo "no job found for client address"]
  | Ok j =>
      match CanWorkflow j, workflowFinder s with
      | true, Some hasActiveWorkflow =>
          match hasActiveWorkflow (HardwareID j) with
          | Err err =>
              [WriteHeader http.StatusNotFound;
               LogInfo "failed to get workflows"]
          | Ok activeWorkflows =>
              if negb activeWorkflows then
                [WriteHeader http.StatusNotFound;
                 LogInfo "no active workflows"]
              else [CallServeProblemEndpoint j]
          end
      | _, _ => [CallServeProblemEndpoint j]
      end
  end ++ deferred "problem".

(** [readClose]: the body read whole, a failure wrapped. *)
Definition readClose (r : result string) : result string :=
  match r with
  | Ok b => Ok b
  | Err err => Err (Wrap err "read data")
  end.

(** The interface [eventsServer]. *)
Record eventsServer : Type := mkEventsServer {
  GetInstanceIDFromIP : IP -> result string;
  PostInstanceEvent : string -> string -> result string
}.

(** The methods of [es], and [EventServerForReporterFinder]. *)
Definition es_GetInstanceIDFromIP (f : HardwareFinder) (ip : IP)
  : result string :=
  match f ip with
  | Err err => Err err
  | Ok d =>
      match GetInstance d with
      | None => Ok EmptyString
      | Some i => Ok (ID i)
      end
  end.

Definition es_PostInstanceEvent (r : Reporter) (id : string) (body : string)
  : result string :=
  r id body.

Definition EventServerForReporterFinder (r : Reporter) (f : HardwareFinder)
  : eventsServer :=
  {| GetInstanceIDFromIP := es_GetInstanceIDFromIP f;
     PostInstanceEvent := es_PostInstanceEvent r |}.

(** The struct [serveEvents] decodes the body into, and the one it
    encodes for the backend (JSON keys "type", "state", "body"). *)
Record userEvent : Type := mkUserEvent {
  Code : Z;
  State : string;
  Message : string
}.

Record instanceEvent : Type := mkInstanceEvent {
  evType : string;
  evState : string;
  evBody : string
}.

(** The event [serveEvents] builds from a decoded body. *)
Definition eventOf (res : userEvent) : instanceEvent :=
  {| evType := "user." ++ strconv.Itoa (Code res);
     evState := State res;
     evBody := Message res |}.

(** The functions of Go's standard library [serveEvents] calls:
    [net.SplitHostPort], [net.ParseIP] (nil is [None]), [json.Unmarshal]
    into the struct above, and [json.Marshal] of the event. *)
Record Lib : Type := mkLib {
  SplitHostPort : string -> result (string * string);
  ParseIP : string -> option IP;
  Unmarshal : string -> result userEvent;
  Marshal : instanceEvent -> result string
}.

(** [serveEvents]: forward user generated events to the API.  The result
    is what was done and the pair (status, error) returned. *)
Definition serveEvents (lib : Lib) (es : eventsServer) (req : Request)
  : list effect * (Z * option error) :=
  match SplitHostPort lib (RemoteAddr req) with
  | Err err =>
      ([WriteHeader http.StatusBadRequest],
       (http.StatusBadRequest, Some (Wrap err "split host port")))
  | Ok (host, _) =>
  match ParseIP lib host with
  | None =>
      ([WriteHeader http.StatusOK],
       (http.StatusOK, Some (New "no device found for client address")))
  | Some ip =>
  match GetInstanceIDFromIP es ip with
  | Err _ =>
      ([WriteHeader http.StatusOK],
       (http.StatusOK, Some (New "no device found for client address")))
  | Ok deviceID =>
  if String.eqb deviceID EmptyString then
      ([WriteHeader http.StatusOK],
       (http.StatusOK, Some (New "no device found for client address")))
  else
  match readClose (Body req) with
  | Err err =>
      ([WriteHeader http.StatusBadRequest], (http.StatusBadRequest, Some err))
  | Ok b =>
  if Nat.eqb (String.length b) 0 then
      ([WriteHeader http.StatusBadRequest],
       (http.StatusBadRequest, Some (New "userEvent body is empty")))
  else
  match Unmarshal lib b with
  | Err _ =>
      ([WriteHeader http.StatusBadRequest],
       (http.StatusBadRequest,
        Some (New "userEvent cannot be generated from supplied json")))
  | Ok res =>
  let e := eventOf res in
  match Marshal lib e with
  | Err _ =>
      ([WriteHeader http.StatusBadRequest],
       (http.StatusBadRequest, Some (New "userEvent cannot be encoded")))
  | Ok payload =>
  match PostInstanceEvent es deviceID payload with
  | Err _ =>
      ([CallPostInstanceEvent deviceID payload;
        WriteHeader http.StatusBadRequest],
       (http.StatusBadRequest, Some (New "failed to post userEvent")))
  | Ok _ =>
      ([CallPostInstanceEvent deviceID payload;
        WriteHeader http.StatusOK;
        Write EmptyString],
       (http.StatusOK, None))
  end end end end end end end.

(** The handler [ServeHTTP] registers for "/events". *)
Definition eventsRoute (lib : Lib) (s : BootsHTTPServer) (req : Request)
  : list effect :=
  let '(did, (code, err)) :=
    serveEvents lib (EventServerForReporterFinder (reporter s) (finder s)) req in
  match err with
  | None => did
  | Some e => if negb (Z.eqb code http.StatusOK) then did ++ [LogError e] else did
  end.

(** *** What a client sees of a handler's effects *)

(** The status the handler set: that of its first [WriteHeader]. *)
Fixpoint status (tr : list effect) : option Z :=
  match tr with
  | [] => None
  | WriteHeader code :: _ => Some code
  | _ :: rest => status rest
  end.

(** The calls that hand the response to a job method. *)
Definition isCall (e : effect) : bool :=
  match e with
  | CallServeFile _ | CallAddHardware _
  | CallServePhoneHomeEndpoint _ _ | CallServeProblemEndpoint _ => true
  | _ => false
  end.

(** The events posted to the backend, in order. *)
Fixpoint posted (tr : list effect) : list (string * string) :=
  match tr with
  | [] => []
  | CallPostInstanceEvent id payload :: rest => (id, payload) :: posted rest
  | _ :: rest => posted rest
  end.

(** Nothing is served: no job method is called and no body byte written. *)
Definition servesNothing (tr : list effect) : bool :=
  forallb (fun e => negb (isCall e) &&
                    match e with Write _ => false | _ => true end) tr.

(** A response that is a 404 with nothing served. *)
Definition notFound (tr : list effect) : Prop :=
  status tr = Some http.StatusNotFound /\ servesNothing tr = true.

End boots.

(** ** Phone-home *)

Module phonehome.
Import job boots.

(** A body the endpoint cannot use: it does not read, or it is not the
    JSON the endpoint expects ([wellFormed] is that check). *)
Definition malformed (wellFormed : string -> bool) (req : Request) : bool :=
  match Body req with
  | Err _ => true
  | Ok b => negb (wellFormed b)
  end.

(** Modelled from the spec: [ServePhoneHomeEndpoint] is not under src/.
    Sections 4.6, 6 and 7: phone-home answers 200 unless the body is
    malformed, which is a 400, and the body is relayed to the inventory
    backend as an event of the job's instance. *)
Definition ServePhoneHomeEndpoint (wellFormed : string -> bool) (j : Job)
  (req : Request) : list effect :=
  match Body req with
  | Err _ => [WriteHeader http.StatusBadRequest]
  | Ok b =>
      if wellFormed b then
        [CallPostInstanceEvent (InstanceID j) b;
         WriteHeader http.StatusOK;
         Write EmptyString]
      else [WriteHeader http.StatusBadRequest]
  end.

(** A handler's effects with those of the phone-home endpoint in place of
    its call. *)
Definition inlined (wellFormed : string -> bool) (tr : list effect)
  : list effect :=
  flat_map (fun e =>
    match e with
    | CallServePhoneHomeEndpoint j req => ServePhoneHomeEndpoint wellFormed j req
    | _ => [e]
    end) tr.

(** Modelled from the spec: the inventory backend is an external
    collaborator.  It binds client addresses to the jobs (hardware
    identities) they resolve to, and keeps the instance events posted. *)
Record Backend : Type := mkBackend {
  inventory : list (string * Job);
  instanceEvents : list (string * string)
}.

(** Modelled from the spec: section 4.1, [Resolve(sourceAddress)]: the
    record bound to the address, or NotFound. *)
Definition resolve (bk : Backend) : Manager :=
  fun addr =>
    match mapLookup addr (inventory bk) with
    | Some j => Ok j
    | None => Err "not found"
    end.

(** The effects that reach the backend: the event posted, and the job
    methods outside src/, which may call it in ways that are not known. *)
Definition reachesBackend (e : effect) : bool :=
  match e with
  | CallPostInstanceEvent _ _ => true
  | _ => isCall e
  end.

(** A backend as far as the instance-event API goes: a posted event is
    recorded and nothing else changes; what the job methods outside src/
    do to it is not known ([None]); the other effects go nowhere near it.
    The properties below hold of every backend that treats posted events
    and local effects this way, whatever it does on the other calls. *)
Definition record (e : effect) (bk : Backend) : option Backend :=
  match e with
  | CallPostInstanceEvent id payload =>
      Some {| inventory := inventory bk;
              instanceEvents := instanceEvents bk ++ [(id, payload)] |}
  | CallServeFile _ | CallAddHardware _
  | CallServePhoneHomeEndpoint _ _ | CallServeProblemEndpoint _ => None
  | _ => Some bk
  end.

(** The backend after the effects of a handler, for a backend that
    answers each effect as [react] says. *)
Fixpoint afterWith (react : effect -> Backend -> option Backend)
  (tr : list effect) (bk : Backend) : option Backend :=
  match tr with
  | [] => Some bk
  | e :: rest =>
      match react e bk with
      | Some bk' => afterWith react rest bk'
      | None => None
      end
  end.

(** [n] phone-home requests one after the other, each served over the
    backend as the one before left it: the backend at the end and the
    statuses answered, or [None] when an effect on the backend is not
    known. *)
Fixpoint repeatedWith (react : effect -> Backend -> option Backend)
  (wellFormed : string -> bool)
  (server : Manager -> BootsHTTPServer) (req : Request) (n : nat)
  (bk : Backend) : option (Backend * list (option Z)) :=
  match n with
  | O => Some (bk, [])
  | S k =>
      let tr := inlined wellFormed (servePhoneHome (server (resolve bk)) req) in
      match afterWith react tr bk with
      | None => None
      | Some bk' =>
          match repeatedWith react wellFormed server req k bk' with
          | None => None
          | Some (bk'', sts) => Some (bk'', status tr :: sts)
          end
      end
  end.

End phonehome.

(** ** Test doubles *)

Module doubles.
Import job boots.

(** A client address, the host it splits to, and a well-formed body. *)
Definition clientAddr : string := "127.0.0.1:4000".
Definition clientHost : string := "127.0.0.1".

Definition eventBody : string :=
  "{" ++ dq ++ "code" ++ dq ++ ":7," ++ dq ++ "state" ++ dq ++ ":" ++ dq
      ++ "running" ++ dq ++ "," ++ dq ++ "message" ++ dq ++ ":" ++ dq
      ++ "disk ready" ++ dq ++ "}".

Definition eventRequest : Request :=
  {| RemoteAddr := clientAddr; Body := Ok eventBody |}.

(** The event as JSON, its strings written as they are. *)
Definition marshalEvent (e : instanceEvent) : string :=
  "{" ++ dq ++ "type" ++ dq ++ ":" ++ dq ++ evType e ++ dq ++ ","
      ++ dq ++ "state" ++ dq ++ ":" ++ dq ++ evState e ++ dq ++ ","
      ++ dq ++ "body" ++ dq ++ ":" ++ dq ++ evBody e ++ dq ++ "}".

(** A library that knows the one address and the one body. *)
Definition lib : Lib :=
  {| SplitHostPort := fun addr =>
       if String.eqb addr clientAddr then Ok (clientHost, "4000")
       else Err "missing port in address";
     ParseIP := fun host =>
       if String.eqb host clientHost then Some host else None;
     Unmarshal := fun b =>
       if String.eqb b eventBody
       then Ok {| Code := 7; State := "running"; Message := "disk ready" |}
       else Err "invalid character";
     Marshal := fun e => Ok (marshalEvent e) |}.

(** An events server whose backend accepts events, and one whose backend
    fails. *)
Definition esUp : eventsServer :=
  {| GetInstanceIDFromIP := fun _ => Ok "inst-1";
     PostInstanceEvent := fun _ _ => Ok EmptyString |}.

Definition esDown : eventsServer :=
  {| GetInstanceIDFromIP := fun _ => Ok "inst-1";
     PostInstanceEvent := fun _ _ => Err "connection refused" |}.

(** A job that can run workflows, on hardware "hw-1", whose one interface
    allows netboot. *)
Definition workflowJob : Job :=
  {| hardware := Some {| hwID := "hw-1";
                         hwFacilityCode := "ewr1";
                         hwPlanSlug := "c3.small.x86";
                         hwOSSlug := EmptyString;
                         hwOSDistro := EmptyString;
                         hwOSVersion := EmptyString;
                         hwInterfaces :=
                           [mkInterface "00:00:ba:dd:be:ef" clientHost true];
                         hwCustomData := CDNil;
                         hwBootDriveHint := EmptyString;
                         hwInstanceID := "inst-1";
                         hwCryptedPassword := EmptyString;
                         hwPassword := EmptyString;
                         hwIPXEScriptURL := EmptyString |};
     mac := "00:00:ba:dd:be:ef";
     canWorkflow := true |}.

(** A server that resolves every address to that job; [wf] is its
    workflow finder. *)
Definition serverWith (wf : option WorkflowFinder) : BootsHTTPServer :=
  {| workflowFinder := wf;
     reporter := fun _ _ => Ok EmptyString;
     finder := fun _ => Ok (mkDiscoverer (Some (mkInstance "inst-1")));
     jobManager := fun _ => Ok workflowJob |}.

End doubles.

(** ** Reading a handler's effects *)

Module observe.
Import job boots.

(** The codes of all the [WriteHeader] calls, in order. *)
Fixpoint headers (tr : list effect) : list Z :=
  match tr with
  | [] => []
  | WriteHeader code :: rest => code :: headers rest
  | _ :: rest => headers rest
  end.

(** The calls of job methods, in order. *)
Definition calls (tr : list effect) : list effect := filter isCall tr.

Definition isPanic (e : effect) : bool :=
  match e with
  | Panic _ => true
  | _ => false
  end.

Definition panics (tr : list effect) : bool := existsb isPanic tr.

(** The messages of the error log. *)
Fixpoint errorsLogged (tr : list effect) : list string :=
  match tr with
  | [] => []
  | LogError msg :: rest => msg :: errorsLogged rest
  | _ :: rest => errorsLogged rest
  end.

(** The Prometheus series of one label set [op]: how often [JobsTotal]
    was incremented, and the value of the gauge [JobsInProgress] after the
    effects, from the value [g] before them. *)
Fixpoint jobsTotal (op : string) (tr : list effect) : nat :=
  match tr with
  | [] => 0
  | JobsTotalInc op' :: rest =>
      (if String.eqb op' op then 1 else 0) + jobsTotal op rest
  | _ :: rest => jobsTotal op rest
  end.

Fixpoint jobsInProgress (op : string) (tr : list effect) (g : Z) : Z :=
  match tr with
  | [] => g
  | JobsInProgressInc op' :: rest =>
      jobsInProgress op rest (if String.eqb op' op then g + 1 else g)%Z
  | JobsInProgressDec op' :: rest =>
      jobsInProgress op rest (if String.eqb op' op then g - 1 else g)%Z
  | _ :: rest => jobsInProgress op rest g
  end.

(** The durations observed for [op]. *)
Fixpoint observed (op : string) (tr : list effect) : nat :=
  match tr with
  | [] => 0
  | ObserveDuration op' :: rest =>
      (if String.eqb op' op then 1 else 0) + observed op rest
  | _ :: rest => observed op rest
  end.

(** An effect that touches no counter. *)
Definition isMetric (e : effect) : bool :=
  match e with
  | JobsTotalInc _ | JobsInProgressInc _ | JobsInProgressDec _
  | ObserveDuration _ => true
  | _ => false
  end.

(** /hardware-components read as /problem: the label of the counters and
    the job method called. *)
Definition asProblem (e : effect) : effect :=
  match e with
  | JobsTotalInc _ => JobsTotalInc "problem"
  | JobsInProgressInc _ => JobsInProgressInc "problem"
  | JobsInProgressDec _ => JobsInProgressDec "problem"
  | ObserveDuration _ => ObserveDuration "problem"
  | CallAddHardware j => CallServeProblemEndpoint j
  | e => e
  end.

(** The four job handlers, each with the label of its counters. *)
Inductive jobEndpoint : Type :=
| FileEndpoint
| HardwareEndpoint
| PhoneHomeEndpoint
| ProblemEndpoint.

Definition label (ep : jobEndpoint) : string :=
  match ep with
  | FileEndpoint => "file"
  | HardwareEndpoint => "hardware-components"
  | PhoneHomeEndpoint => "phone-home"
  | ProblemEndpoint => "problem"
  end.

(** The handler [ServeHTTP] registers for the endpoint ([serveJobFile]
    through a [jobHandler] over the server's job manager). *)
Definition handle (ep : jobEndpoint) (s : BootsHTTPServer) (req : Request)
  : list effect :=
  match ep with
  | FileEndpoint => serveJobFile (mkJobHandler (jobManager s)) req
  | HardwareEndpoint => serveHardware s req
  | PhoneHomeEndpoint => servePhoneHome s req
  | ProblemEndpoint => serveProblem s req
  end.

End observe.

(** ** More test doubles *)

Module more_doubles.
Import job boots.

(** An events server that finds a hardware record without an instance
    for every address. *)
Definition esNoInstance : eventsServer :=
  {| GetInstanceIDFromIP := fun _ => Ok EmptyString;
     PostInstanceEvent := fun _ _ => Ok EmptyString |}.

(** A request from the known address whose body cannot be read. *)
Definition brokenBodyRequest : Request :=
  {| RemoteAddr := doubles.clientAddr; Body := Err "unexpected EOF" |}.

(** A server whose hardware finder knows the instance [id] and whose
    reporter is [r]. *)
Definition serverFor (id : string) (r : Reporter) : BootsHTTPServer :=
  {| workflowFinder := None;
     reporter := r;
     finder := fun _ => Ok (mkDiscoverer (Some (mkInstance id)));
     jobManager := fun _ => Err "not found" |}.

(** A backend that knows the test address and the job behind it, and the
    JSON check that accepts the test body. *)
Definition testBackend : phonehome.Backend :=
  {| phonehome.inventory := [(doubles.clientAddr, doubles.workflowJob)];
     phonehome.instanceEvents := [] |}.

Definition testWellFormed (b : string) : bool := String.eqb b doubles.eventBody.

End more_doubles.

(** ** Replacements that work line by line *)

Module replacements.
Import strings.

(** Every pattern is non-empty and neither it nor what replaces it holds
    a newline. *)
Fixpoint linewise (replacements : list string) : bool :=
  match replacements with
  | old :: new :: rest =>
      negb (String.eqb old EmptyString) && oneLine old && oneLine new
      && linewise rest
  | _ => true
  end.

(** No pattern occurs in any of the lines. *)
Fixpoint absent (lines replacements : list string) : bool :=
  match replacements with
  | old :: new :: rest =>
      forallb (fun line => negb (Contains line old)) lines && absent lines rest
  | _ => true
  end.

(** Some non-empty suffix of [a] is a shorter prefix of [old]: a match of
    [old] could start in [a] and end in what follows. *)
Fixpoint danglingStart (old a : string) : bool :=
  match a with
  | EmptyString => false
  | String _ a' =>
      (Nat.ltb (String.length a) (String.length old) && HasPrefix old a)
      || danglingStart old a'
  end.

(** [b] starts with some non-empty suffix of [o]. *)
Fixpoint startsWithSuffix (b o : string) : bool :=
  match o with
  | EmptyString => false
  | String _ o' => HasPrefix b o || startsWithSuffix b o'
  end.

(** [b] starts with a shorter, non-empty suffix of [old]: a match of
    [old] could start before [b] and end in it. *)
Definition danglingEnd (old b : string) : bool :=
  match old with
  | EmptyString => false
  | String _ o' => startsWithSuffix b o'
  end.

End replacements.

(** * Properties *)

(** ** Facts about the string functions *)

Module strings_facts.
Import strings.

Lemma append_assoc (a b c : string) : (a ++ b) ++ c = a ++ (b ++ c).
Proof. induction a as [|x a IH]; simpl; [reflexivity | now rewrite IH]. Qed.

Lemma append_nil_r (a : string) : a ++ EmptyString = a.
Proof. induction a as [|x a IH]; simpl; [reflexivity | now rewrite IH]. Qed.

Lemma HasPrefix_app (p s : string) : HasPrefix (p ++ s) p = true.
Proof.
  induction p as [|c p IH]; simpl; [reflexivity|].
  now rewrite Ascii.eqb_refl, IH.
Qed.

Lemma Contains_of_prefix (s sub : string) :
  HasPrefix s sub = true -> Contains s sub = true.
Proof. intros H. destruct s; cbn [Contains]; rewrite H; reflexivity. Qed.

Lemma Contains_app_l (a s sub : string) :
  Contains s sub = true -> Contains (a ++ s) sub = true.
Proof.
  intros H. induction a as [|c a IH]; [exact H|].
  cbn [append Contains]. rewrite IH. apply orb_true_r.
Qed.

Lemma Contains_middle (a b c : string) : Contains (a ++ b ++ c) b = true.
Proof. apply Contains_app_l, Contains_of_prefix, HasPrefix_app. Qed.

(** An empty pattern is replaced at the beginning and after each UTF-8
    sequence, not after each byte: "a", then the two bytes 195 169 of one
    character, then "b". *)
Example ReplaceAll_empty_pattern :
  ReplaceAll ("a" ++ String (ascii_of_nat 195) (String (ascii_of_nat 169) "b"))
    EmptyString "-"
  = "-a-" ++ String (ascii_of_nat 195) (String (ascii_of_nat 169) "-b-").
Proof. reflexivity. Qed.

(** A byte that starts no well-formed sequence counts alone. *)
Example ReplaceAll_empty_pattern_invalid :
  ReplaceAll (String (ascii_of_nat 195) "a") EmptyString "-"
  = "-" ++ String (ascii_of_nat 195) "-a-".
Proof. reflexivity. Qed.

Lemma substring_whole (n : nat) (s : string) :
  String.length s <= n -> substring 0 n s = s.
Proof.
  revert n. induction s as [|c s IH]; intros n Hn.
  - destruct n; reflexivity.
  - destruct n; simpl in *; [lia|]. rewrite IH by lia. reflexivity.
Qed.

End strings_facts.

(** ** [strconv.Itoa] is the decimal rendering *)

Module strconv_facts.
Import strconv.

Example Itoa_7 : Itoa 7 = "7".
Proof. reflexivity. Qed.

Example Itoa_neg : Itoa (-104) = "-104".
Proof. reflexivity. Qed.

Example Itoa_0 : Itoa 0 = "0".
Proof. reflexivity. Qed.

(** Reading the text back as a decimal number gives the number. *)
Lemma Itoa_reads_back (i : Z) :
  option_map Z.of_int (DecimalString.NilZero.int_of_string (Itoa i)) = Some i.
Proof.
  unfold Itoa. rewrite DecimalString.NilZero.isi.
  - cbn [option_map]. now rewrite DecimalZ.of_to.
  - destruct i as [|p|p]; cbn; try discriminate.
    intros H. injection H as H.
    now apply DecimalPos.Unsigned.to_uint_nonnil in H.
  - destruct i as [|p|p]; cbn; try discriminate.
    intros H. injection H as H.
    now apply DecimalPos.Unsigned.to_uint_nonnil in H.
Qed.

End strconv_facts.

Module vmware_facts.
Import job vmware strings strings_facts.

(** Both test tables pass on the model. *)
Lemma TestFirstDisk_passes : forallb runRow TestFirstDisk_rows = true.
Proof. vm_compute. reflexivity. Qed.

Lemma TestScriptKickstart_disks_pass :
  forallb runRow TestScriptKickstart_rows = true.
Proof. vm_compute. reflexivity. Qed.




(** The job of [TestScriptKickstart] for family "s1.large.x86" without a
    hint gives the command section of the golden file [ks_vmw_ahci.txt]. *)
Example golden_commands :
  kickstartCommands quotedDisk
    (SetBootDriveHint EmptyString
       (SetMAC "00:00:ba:dd:be:ef"
          (SetPassword "password"
             (SetOSSlug "vmware_esxi_6_5" (Mock "s1.large.x86" "ewr1")))))
  = [ EmptyString;
      "# Accept the VMware End User License Agreement";
      "vmaccepteula";
      "# Set the root password for the DCUI and Tech Support Mode";
      "rootpw --iscrypted insecure";
      "# The install media is in the CD-ROM drive";
      "install --firstdisk=" ++ dq ++ "vmw_ahci" ++ dq ++ " --overwritevmfs";
      "# Set the network to DHCP on the proper network adapter based on its type";
      "network --bootproto=dhcp --device=00:00:ba:dd:be:ef";
      "reboot" ].
Proof. reflexivity. Qed.

Lemma unlines_app (l1 l2 : list string) :
  unlines (l1 ++ l2)%list = unlines l1 ++ unlines l2.
Proof.
  induction l1 as [|x l1 IH]; simpl; [reflexivity|].
  now rewrite IH, !append_assoc.
Qed.

(** Where the password line stands in the kickstart. *)
Lemma genKickstart_rootpw_line (fqdn : string) (diskArg : string -> string)
  (j : Job) :
  exists pre post,
    genKickstart fqdn diskArg j =
    pre ++ ("rootpw --iscrypted " ++ rootpw j) ++ post.
Proof.
  exists (unlines [EmptyString;
            "# Accept the VMware End User License Agreement"; "vmaccepteula";
            "# Set the root password for the DCUI and Tech Support Mode"]).
  exists (nl ++ unlines (skipn 5 (kickstartCommands diskArg j))
             ++ unlines (kickstartBody fqdn)).
  unfold genKickstart.
  change (kickstartCommands diskArg j)
    with (List.app (firstn 4 (kickstartCommands diskArg j))
            (("rootpw --iscrypted " ++ rootpw j)
               :: skipn 5 (kickstartCommands diskArg j))).
  rewrite unlines_app. cbn [unlines firstn kickstartCommands].
  now rewrite !append_assoc.
Qed.

Lemma Contains_rootpw (fqdn : string) (diskArg : string -> string) (j : Job) :
  Contains (genKickstart fqdn diskArg j)
    ("rootpw --iscrypted " ++ rootpw j) = true.
Proof.
  destruct (genKickstart_rootpw_line fqdn diskArg j) as (pre & post & E).
  rewrite E. apply Contains_middle.
Qed.

(** The four cases of [TestRootpw] pass on the model. *)
Lemma TestRootpw_passes (fqdn : string) :
  forallb (runRootpw fqdn) TestRootpw_cases = true.
Proof.
  unfold TestRootpw_cases, forallb, runRootpw.
  rewrite !andb_true_r.
  repeat (apply andb_true_intro; split);
    match goal with
    | |- Contains (genKickstart _ _ ?j) _ = true =>
        exact (Contains_rootpw fqdn quotedDisk j)
    end.
Qed.

(** C3: the kickstart holds the line [rootpw --iscrypted <password>], where
    the password is the custom-data "rootpwcrypt" value when custom data is
    a map holding that key with a string value, and the instance's password
    unchanged for every other custom data (no such key, custom data that is
    no map, a value that is no string, such as the number 4). *)
Theorem rootpw_precedence (fqdn : string) (diskArg : string -> string)
  (j : Job) :
  Contains (genKickstart fqdn diskArg j)
    ("rootpw --iscrypted " ++ rootpw j) = true /\
  (forall m s, GetCustomData j = CDMap m ->
     mapLookup "rootpwcrypt" m = Some (CDString s) -> rootpw j = s) /\
  ((forall m s, GetCustomData j = CDMap m ->
      mapLookup "rootpwcrypt" m <> Some (CDString s)) ->
   rootpw j = CryptedPassword j /\
   Contains (genKickstart fqdn diskArg j)
     ("rootpw --iscrypted " ++ CryptedPassword j) = true).
Proof.
  assert (HC : Contains (genKickstart fqdn diskArg j)
                 ("rootpw --iscrypted " ++ rootpw j) = true).
  { apply Contains_rootpw. }
  split; [exact HC|]. split.
  - intros m s Hm Hk. unfold rootpw. now rewrite Hm, Hk.
  - intros Hno.
    assert (E : rootpw j = CryptedPassword j).
    { unfold rootpw. destruct (GetCustomData j) as [| | | | |m] eqn:Hcd;
        try reflexivity.
      destruct (mapLookup "rootpwcrypt" m) as [[| | |s| |]|] eqn:Hk;
        try reflexivity.
      exfalso. exact (Hno m s eq_refl Hk). }
    split; [exact E|]. rewrite <- E. exact HC.
Qed.

End vmware_facts.

(** ** The custom-iPXE boot script *)

Module customipxe_facts.
Import job ipxe customipxe strings_facts.

Lemma dropLast_last (a : string) (c : ascii) :
  dropLast (a ++ String c EmptyString) = a.
Proof.
  induction a as [|x a IH]; [reflexivity|].
  cbn [append dropLast]. rewrite IH.
  destruct a; reflexivity.
Qed.

Lemma Or_after_Set (s name value v : string) :
  Or (Set_ s name value) v = s ++ "set " ++ name ++ " " ++ value ++ " || " ++ v ++ nl.
Proof.
  unfold Or, Set_.
  replace (s ++ "set " ++ name ++ " " ++ value ++ nl)
    with ((s ++ "set " ++ name ++ " " ++ value) ++ nl)
    by now rewrite !append_assoc.
  unfold nl at 1. rewrite dropLast_last.
  now rewrite !append_assoc.
Qed.

Lemma fold_Set (vars : list (string * string)) (s : Script) :
  fold_left (fun s kv => Set_ s (fst kv) (snd kv)) vars s = s ++ setLines vars.
Proof.
  revert s. induction vars as [|[k v] vars IH]; intros s.
  - cbn [fold_left setLines]. now rewrite append_nil_r.
  - cbn [fold_left setLines fst snd]. rewrite IH. unfold Set_.
    now rewrite !append_assoc.
Qed.

(** The golden script of [TestScript] is what the installer writes. *)
Lemma TestScript_passes :
  mapLookup "c3.small.x86" (type2Script "ewr1")
  = Some (TestScript_got "ewr1" "c3.small.x86").
Proof. vm_compute. reflexivity. Qed.

(** C2: the installer's [BootScript], run on a script seeded with the
    interface, tinkerbell endpoint, syslog host and cloud-config variables,
    with extra key/value pairs and the job's script URL, serializes to
    exactly: the header and echo line, the four seeded [set] lines (the
    first with [|| shell]), one [set] line per extra pair in the order
    supplied, the phone-home param block, the facility and plan [set]
    lines, and the final [chain --autofree] line with the URL. *)
Theorem BootScript_bytes (extraIPXEVars : list (string * string)) (j : Job)
  (iface tinkerbell syslog_host cloud_config : string) :
  Bytes (BootScript extraIPXEVars j
           (seeded iface tinkerbell syslog_host cloud_config))
  = "#!ipxe" ++ nl ++ nl ++ "echo Tinkerbell Boots iPXE" ++ nl
    ++ "set iface " ++ iface ++ " || shell" ++ nl
    ++ "set tinkerbell " ++ tinkerbell ++ nl
    ++ "set syslog_host " ++ syslog_host ++ nl
    ++ "set ipxe_cloud_config " ++ cloud_config ++ nl
    ++ setLines extraIPXEVars
    ++ paramBlock
    ++ "set packet_facility " ++ FacilityCode j ++ nl
    ++ "set packet_plan " ++ PlanSlug j ++ nl
    ++ "chain --autofree " ++ IPXEScriptURL j ++ nl.
Proof.
  unfold Bytes, BootScript, seeded. cbv zeta.
  rewrite fold_Set, Or_after_Set.
  unfold Chain, Set_, PhoneHome, NewScript, paramBlock.
  now rewrite !append_assoc.
Qed.

End customipxe_facts.

(** ** The Flatcar install.service *)

Module flatcar_facts.
Import strings flatcar strings_facts.

Lemma Join_cons (e : string) (l : list string) (sep : string) :
  l <> [] -> Join (e :: l) sep = e ++ sep ++ Join l sep.
Proof. destruct l; [congruence | reflexivity]. Qed.

Lemma Join_app (l1 l2 : list string) (sep : string) :
  l1 <> [] -> l2 <> [] ->
  Join (l1 ++ l2) sep = Join l1 sep ++ sep ++ Join l2 sep.
Proof.
  intros H1 H2. induction l1 as [|e l1 IH]; [congruence|].
  destruct l1 as [|e' l1].
  - cbn [app]. now rewrite Join_cons.
  - change ((e :: e' :: l1) ++ l2)%list with (e :: ((e' :: l1) ++ l2))%list.
    rewrite Join_cons by discriminate.
    rewrite IH by discriminate.
    rewrite (Join_cons e (e' :: l1)) by discriminate.
    now rewrite !append_assoc.
Qed.

Lemma splitOn_nonempty (sep : ascii) (cur s : string) : splitOn sep cur s <> [].
Proof.
  revert cur. induction s as [|c s IH]; intros cur; cbn [splitOn].
  - discriminate.
  - destruct (Ascii.eqb c sep); [discriminate | apply IH].
Qed.

(** Joining what [Split] returns gives the text back. *)
Lemma Join_splitOn (cur s : string) :
  Join (splitOn (ascii_of_nat 10) cur s) nl = cur ++ s.
Proof.
  revert cur. induction s as [|c s IH]; intros cur; cbn [splitOn].
  - cbn [Join]. now rewrite append_nil_r.
  - destruct (Ascii.eqb_spec c (ascii_of_nat 10)) as [E|E].
    + rewrite Join_cons by apply splitOn_nonempty.
      rewrite IH. subst c. reflexivity.
    + rewrite IH. now rewrite append_assoc.
Qed.

Lemma Join_SplitLines (s : string) : Join (SplitLines s) nl = s.
Proof. unfold SplitLines. now rewrite Join_splitOn. Qed.

(** A one-line pattern matches at the head of [a ++ nl ++ b] exactly when
    it matches at the head of [a]. *)
Lemma HasPrefix_before_nl (old a b : string) :
  oneLine old = true -> HasPrefix (a ++ nl ++ b) old = HasPrefix a old.
Proof.
  revert a. induction old as [|c old IH]; intros a H; [reflexivity|].
  cbn [oneLine] in H. apply andb_prop in H. destruct H as [Hc Ho].
  destruct a as [|x a]; cbn [append HasPrefix nl].
  - apply negb_true_iff in Hc. now rewrite Hc.
  - now rewrite IH.
Qed.

Lemma HasPrefix_length (s p : string) :
  HasPrefix s p = true -> String.length p <= String.length s.
Proof.
  revert s. induction p as [|c p IH]; intros s H; cbn [String.length]; [lia|].
  destruct s as [|d s]; cbn [HasPrefix] in H; [discriminate|].
  apply andb_prop in H. destruct H as [_ H]. apply IH in H.
  cbn [String.length]. lia.
Qed.

(** The scan goes through a newline without seeing it: a one-line pattern
    is replaced on each side of it separately. *)
Lemma replaceFrom_nl (old new b : string) :
  oneLine old = true -> old <> EmptyString ->
  forall (a : string) (skip : nat), skip <= String.length a ->
  replaceFrom old new skip (a ++ nl ++ b)
  = replaceFrom old new skip a ++ nl ++ replaceFrom old new 0 b.
Proof.
  intros Hone Hne. induction a as [|x a IH]; intros skip Hskip.
  - cbn [String.length] in Hskip. assert (skip = 0) by lia. subst skip.
    cbn [append nl replaceFrom].
    destruct old as [|c old]; [congruence|].
    cbn [oneLine] in Hone. apply andb_prop in Hone. destruct Hone as [Hc _].
    apply negb_true_iff in Hc. cbn [HasPrefix]. now rewrite Hc.
  - cbn [String.length] in Hskip.
    change (String x a ++ nl ++ b) with (String x (a ++ nl ++ b)).
    destruct skip as [|k].
    + cbn [replaceFrom].
      change (String x (a ++ nl ++ b)) with (String x a ++ nl ++ b).
      rewrite HasPrefix_before_nl by exact Hone.
      destruct (HasPrefix (String x a) old) eqn:Hp.
      * apply HasPrefix_length in Hp. cbn [String.length] in Hp.
        rewrite IH by lia. now rewrite append_assoc.
      * rewrite IH by lia. reflexivity.
    + cbn [replaceFrom]. apply IH. lia.
Qed.

Lemma ReplaceAll_nl (a b old new : string) :
  oneLine old = true -> old <> EmptyString ->
  ReplaceAll (a ++ nl ++ b) old new
  = ReplaceAll a old new ++ nl ++ ReplaceAll b old new.
Proof.
  intros Hone Hne. unfold ReplaceAll.
  destruct old as [|c old]; [congruence|].
  apply replaceFrom_nl; [exact Hone | exact Hne | lia].
Qed.

(** A replacement that leaves the first and last parts alone acts on the
    middle part only. *)
Lemma ReplaceAll_middle (a e b old new : string) :
  oneLine old = true -> old <> EmptyString ->
  ReplaceAll a old new = a -> ReplaceAll b old new = b ->
  ReplaceAll (a ++ nl ++ e ++ nl ++ b) old new
  = a ++ nl ++ ReplaceAll e old new ++ nl ++ b.
Proof.
  intros Hone Hne Ha Hb.
  rewrite ReplaceAll_nl, ReplaceAll_nl by assumption.
  now rewrite Ha, Hb.
Qed.

(** The checked text, cut where the family's lines start and end. *)
Lemma verifyContents_parts (execLines : list string) :
  execLines <> [] ->
  verifyContents execLines
  = Join baseStart nl ++ nl ++ Join execLines nl ++ nl ++ Join baseEnd nl.
Proof.
  intros H. unfold verifyContents.
  rewrite Join_app; [| discriminate | destruct execLines; [congruence | discriminate]].
  rewrite Join_app by (assumption || discriminate).
  reflexivity.
Qed.

Lemma SplitLines_nonempty (s : string) : SplitLines s <> [].
Proof. apply splitOn_nonempty. Qed.

Ltac untouched := first [ reflexivity | discriminate | vm_compute; reflexivity ].


End flatcar_facts.

(** ** The HTTP handlers *)

Module boots_facts.
Import job boots.
#[local] Open Scope list_scope.

(** The status and what is served do not depend on the counters. *)
Lemma status_framed (op : string) (mid : list effect) :
  status (started op ++ mid ++ deferred op) = status mid.
Proof.
  cbn [started app status].
  induction mid as [|e mid IH]; [reflexivity|].
  destruct e; cbn [app status]; try exact IH; reflexivity.
Qed.

Lemma servesNothing_framed (op : string) (mid : list effect) :
  servesNothing (started op ++ mid ++ deferred op) = servesNothing mid.
Proof.
  unfold servesNothing. rewrite !forallb_app. cbn [started deferred forallb isCall negb andb].
  now rewrite andb_true_r.
Qed.

(** [AllowPXE()] by cases. *)
Lemma AllowPXE_true_iff (j : Job) :
  AllowPXE j = true <->
  exists hw i, hardware j = Some hw /\
               findInterface (mac j) (hwInterfaces hw) = Some i /\
               ifAllowPXE i = true.
Proof.
  unfold AllowPXE. split.
  - destruct (hardware j) as [hw|]; [|discriminate].
    destruct (findInterface (mac j) (hwInterfaces hw)) as [i|] eqn:E;
      [|discriminate].
    intros H. now exists hw, i.
  - intros (hw & i & Hh & Hi & Ha). now rewrite Hh, Hi.
Qed.

(** C4: the job-file handler answers 404 and serves nothing whenever no
    job resolves for the client address or the resolved job's [AllowPXE()]
    is false; [AllowPXE()] is true only if a hardware record exists and the
    resolving interface's netboot-allow flag is true; the file is served
    (by [ServeFile], on the resolved job) exactly when a job resolves and
    its [AllowPXE()] is true. *)
Theorem serveJobFile_gate (h : jobHandler) (req : Request) :
  ((forall j, handlerJobManager h (RemoteAddr req) = Ok j ->
              AllowPXE j = false) ->
   status (serveJobFile h req) = Some http.StatusNotFound /\
   servesNothing (serveJobFile h req) = true) /\
  (forall j, handlerJobManager h (RemoteAddr req) = Ok j ->
             AllowPXE j = true ->
   serveJobFile h req = started "file" ++ [CallServeFile j] ++ deferred "file") /\
  (servesNothing (serveJobFile h req) = false ->
   exists j, handlerJobManager h (RemoteAddr req) = Ok j /\
             AllowPXE j = true) /\
  (forall j, AllowPXE j = true ->
   exists hw i, hardware j = Some hw /\
                findInterface (mac j) (hwInterfaces hw) = Some i /\
                ifAllowPXE i = true).
Proof.
  unfold serveJobFile.
  destruct (handlerJobManager h (RemoteAddr req)) as [j|e].
  - destruct (AllowPXE j) eqn:Ha; cbn [negb];
      rewrite status_framed, servesNothing_framed;
      (split; [|split; [|split]]).
    + intros H. specialize (H j eq_refl). congruence.
    + intros j' Hj' _. now inversion Hj'.
    + intros _. now exists j.
    + intros j' Hj'. now apply AllowPXE_true_iff.
    + intros _. split; reflexivity.
    + intros j' Hj' Ha'. inversion Hj'; subst. congruence.
    + cbn. discriminate.
    + intros j' Hj'. now apply AllowPXE_true_iff.
  - rewrite status_framed, servesNothing_framed.
    split; [|split; [|split]].
    + intros _. split; reflexivity.
    + intros j Hj. discriminate.
    + cbn. discriminate.
    + intros j' Hj'. now apply AllowPXE_true_iff.
Qed.

(** The two workflow-gated handlers, side by side, once a job resolved. *)
Lemma serveHardware_resolved (s : BootsHTTPServer) (req : Request) (j : Job) :
  jobManager s (RemoteAddr req) = Ok j ->
  serveHardware s req =
  started "hardware-components" ++
  (if CanWorkflow j then
     match workflowFinder s with
     | None => [Panic "invalid memory address or nil pointer dereference"]
     | Some hasActiveWorkflow =>
         match hasActiveWorkflow (HardwareID j) with
         | Err err =>
             [WriteHeader http.StatusNotFound; LogInfo "failed to get workflows"]
         | Ok activeWorkflows =>
             if negb activeWorkflows then
               [WriteHeader http.StatusNotFound; LogInfo "no active workflows"]
             else [CallAddHardware j]
         end
     end
   else [CallAddHardware j]) ++ deferred "hardware-components".
Proof. intros H. unfold serveHardware. now rewrite H. Qed.

Lemma serveProblem_resolved (s : BootsHTTPServer) (req : Request) (j : Job) :
  jobManager s (RemoteAddr req) = Ok j ->
  serveProblem s req =
  started "problem" ++
  match CanWorkflow j, workflowFinder s with
  | true, Some hasActiveWorkflow =>
      match hasActiveWorkflow (HardwareID j) with
      | Err err =>
          [WriteHeader http.StatusNotFound; LogInfo "failed to get workflows"]
      | Ok activeWorkflows =>
          if negb activeWorkflows then
            [WriteHeader http.StatusNotFound; LogInfo "no active workflows"]
          else [CallServeProblemEndpoint j]
      end
  | _, _ => [CallServeProblemEndpoint j]
  end ++ deferred "problem".
Proof. intros H. unfold serveProblem. now rewrite H. Qed.

(** C8, as stated, fails for /problem: with no workflow finder configured
    the guard [s.workflowFinder != nil] skips the check, and a job that can
    run workflows is served although no backend reported an active
    workflow. *)
Lemma serveProblem_without_finder_serves :
  jobManager (doubles.serverWith None)
    (RemoteAddr doubles.eventRequest) = Ok doubles.workflowJob /\
  CanWorkflow doubles.workflowJob = true /\
  workflowFinder (doubles.serverWith None) = None /\
  serveProblem (doubles.serverWith None) doubles.eventRequest
  = started "problem" ++ [CallServeProblemEndpoint doubles.workflowJob]
    ++ deferred "problem" /\
  status (serveProblem (doubles.serverWith None) doubles.eventRequest)
  <> Some http.StatusNotFound /\
  servesNothing (serveProblem (doubles.serverWith None) doubles.eventRequest)
  = false.
Proof. repeat split. vm_compute. discriminate. Qed.

(** C8 (amended): for a request to /hardware-components or /problem whose
    job resolved, on a server with a workflow finder: when the job's
    [CanWorkflow()] is true the handler answers 404 and serves nothing
    unless the finder reports an active workflow for the job's hardware
    ID (a failed lookup is a 404 too), and serves the endpoint when it
    does; when [CanWorkflow()] is false the check is skipped and the
    endpoint is served directly.  /problem is also served directly when
    the server has no workflow finder. *)
Theorem workflow_gate (s : BootsHTTPServer) (req : Request) (j : Job)
  (Hj : jobManager s (RemoteAddr req) = Ok j) :
  (forall hasActiveWorkflow,
     workflowFinder s = Some hasActiveWorkflow -> CanWorkflow j = true ->
     (hasActiveWorkflow (HardwareID j) = Ok true ->
      serveHardware s req
      = started "hardware-components" ++ [CallAddHardware j]
        ++ deferred "hardware-components" /\
      serveProblem s req
      = started "problem" ++ [CallServeProblemEndpoint j]
        ++ deferred "problem") /\
     (hasActiveWorkflow (HardwareID j) <> Ok true ->
      notFound (serveHardware s req) /\ notFound (serveProblem s req))) /\
  (CanWorkflow j = false ->
   serveHardware s req
   = started "hardware-components" ++ [CallAddHardware j]
     ++ deferred "hardware-components" /\
   serveProblem s req
   = started "problem" ++ [CallServeProblemEndpoint j] ++ deferred "problem") /\
  (workflowFinder s = None ->
   serveProblem s req
   = started "problem" ++ [CallServeProblemEndpoint j] ++ deferred "problem").
Proof.
  rewrite (serveHardware_resolved s req j Hj), (serveProblem_resolved s req j Hj).
  unfold notFound. rewrite !status_framed, !servesNothing_framed.
  split; [|split].
  - intros wf Hwf Hc. rewrite Hwf, Hc. split.
    + intros Hok. rewrite Hok. split; reflexivity.
    + intros Hno. destruct (wf (HardwareID j)) as [[|]|e];
        [congruence | | ]; repeat split; reflexivity.
  - intros Hc. rewrite Hc. split; reflexivity.
  - intros Hn. rewrite Hn. destruct (CanWorkflow j); reflexivity.
Qed.

(** The theorem at a server whose finder reports an active workflow for
    every hardware ID. *)
Lemma workflow_gate_witness :
  jobManager (doubles.serverWith (Some (fun _ => Ok true)))
    (RemoteAddr doubles.eventRequest) = Ok doubles.workflowJob /\
  serveHardware (doubles.serverWith (Some (fun _ => Ok true)))
    doubles.eventRequest
  = started "hardware-components" ++ [CallAddHardware doubles.workflowJob]
    ++ deferred "hardware-components".
Proof.
  split; [reflexivity|].
  apply (proj1 (workflow_gate
                  (doubles.serverWith (Some (fun _ => Ok true)))
                  doubles.eventRequest doubles.workflowJob eq_refl)
           (fun _ => Ok true) eq_refl eq_refl).
  reflexivity.
Defined.

(** With no workflow finder, /hardware-components panics for a job that
    can run workflows: the guard /problem has is missing there. *)
Lemma serveHardware_without_finder_panics :
  serveHardware (doubles.serverWith None) doubles.eventRequest
  = started "hardware-components"
    ++ [Panic "invalid memory address or nil pointer dereference"]
    ++ deferred "hardware-components".
Proof. reflexivity. Qed.

(** *** Events *)

(** Past the address checks, the handler is decided by the body and the
    backend. *)
Lemma serveEvents_resolved (lib : Lib) (es : eventsServer) (req : Request)
  (host port : string) (ip : IP) (deviceID : string) :
  SplitHostPort lib (RemoteAddr req) = Ok (host, port) ->
  ParseIP lib host = Some ip ->
  GetInstanceIDFromIP es ip = Ok deviceID ->
  deviceID <> EmptyString ->
  serveEvents lib es req =
  match readClose (Body req) with
  | Err err =>
      ([WriteHeader http.StatusBadRequest], (http.StatusBadRequest, Some err))
  | Ok b =>
  if Nat.eqb (String.length b) 0 then
      ([WriteHeader http.StatusBadRequest],
       (http.StatusBadRequest, Some (New "userEvent body is empty")))
  else
  match Unmarshal lib b with
  | Err _ =>
      ([WriteHeader http.StatusBadRequest],
       (http.StatusBadRequest,
        Some (New "userEvent cannot be generated from supplied json")))
  | Ok res =>
  match Marshal lib (eventOf res) with
  | Err _ =>
      ([WriteHeader http.StatusBadRequest],
       (http.StatusBadRequest, Some (New "userEvent cannot be encoded")))
  | Ok payload =>
  match PostInstanceEvent es deviceID payload with
  | Err _ =>
      ([CallPostInstanceEvent deviceID payload;
        WriteHeader http.StatusBadRequest],
       (http.StatusBadRequest, Some (New "failed to post userEvent")))
  | Ok _ =>
      ([CallPostInstanceEvent deviceID payload;
        WriteHeader http.StatusOK;
        Write EmptyString],
       (http.StatusOK, None))
  end end end end.
Proof.
  intros Hs Hp Hi Hd. unfold serveEvents. rewrite Hs, Hp, Hi.
  apply String.eqb_neq in Hd. rewrite Hd. reflexivity.
Qed.

Lemma length_zero_iff (b : string) : Nat.eqb (String.length b) 0 = true <-> b = EmptyString.
Proof. destruct b; cbn; split; congruence. Qed.

(** C7, as stated, fails: a request from an address that resolves to an
    instance, with a non-empty body that decodes, is answered 400 and not
    200 when the backend rejects the event. *)
Lemma serveEvents_post_failure_not_200 :
  SplitHostPort doubles.lib (RemoteAddr doubles.eventRequest)
  = Ok (doubles.clientHost, "4000"%string) /\
  ParseIP doubles.lib doubles.clientHost = Some doubles.clientHost /\
  GetInstanceIDFromIP doubles.esDown doubles.clientHost = Ok "inst-1"%string /\
  Unmarshal doubles.lib doubles.eventBody
  = Ok {| Code := 7; State := "running"; Message := "disk ready" |} /\
  status (fst (serveEvents doubles.lib doubles.esDown doubles.eventRequest))
  = Some http.StatusBadRequest /\
  status (fst (serveEvents doubles.lib doubles.esDown doubles.eventRequest))
  <> Some http.StatusOK.
Proof. repeat split. vm_compute. discriminate. Qed.

(** C7 (amended): for a request to /events from a client address that
    resolves to an instance: when the body is non-empty and decodes into
    the code/state/message struct, the one event posted to the backend for
    that instance has type "user." followed by the decimal rendering of
    the code, the state unchanged and the message as its body, and the
    handler answers 200 when the event encodes and the backend accepts it;
    a body that is unreadable, empty or does not decode is answered 400 and
    no event is posted. *)
Theorem serveEvents_forwards (lib : Lib) (es : eventsServer) (req : Request)
  (host port : string) (ip : IP) (deviceID : string)
  (Hsplit : SplitHostPort lib (RemoteAddr req) = Ok (host, port))
  (Hip : ParseIP lib host = Some ip)
  (Hid : GetInstanceIDFromIP es ip = Ok deviceID)
  (Hinst : deviceID <> EmptyString) :
  (forall b res payload ack,
     Body req = Ok b -> b <> EmptyString ->
     Unmarshal lib b = Ok res ->
     Marshal lib {| evType := ("user." ++ strconv.Itoa (Code res))%string;
                    evState := State res;
                    evBody := Message res |} = Ok payload ->
     PostInstanceEvent es deviceID payload = Ok ack ->
     serveEvents lib es req
     = ([CallPostInstanceEvent deviceID payload;
         WriteHeader http.StatusOK;
         Write EmptyString],
        (http.StatusOK, None))) /\
  ((exists e, Body req = Err e) \/
   Body req = Ok EmptyString \/
   (exists b e, Body req = Ok b /\ Unmarshal lib b = Err e) ->
   status (fst (serveEvents lib es req)) = Some http.StatusBadRequest /\
   posted (fst (serveEvents lib es req)) = [] /\
   fst (snd (serveEvents lib es req)) = http.StatusBadRequest /\
   snd (snd (serveEvents lib es req)) <> None).
Proof.
  rewrite (serveEvents_resolved lib es req host port ip deviceID
             Hsplit Hip Hid Hinst).
  split.
  - intros b res payload ack Hb Hne Hu Hm Hpost. rewrite Hb. cbn [readClose].
    destruct (Nat.eqb (String.length b) 0) eqn:Hl.
    + apply length_zero_iff in Hl. congruence.
    + rewrite Hu. unfold eventOf. rewrite Hm, Hpost. reflexivity.
  - intros [[e He] | [He | (b & e & Hb & Hu)]].
    + rewrite He. cbn. repeat split. discriminate.
    + rewrite He. cbn. repeat split. discriminate.
    + rewrite Hb. cbn [readClose].
      destruct (Nat.eqb (String.length b) 0).
      * cbn. repeat split. discriminate.
      * rewrite Hu. cbn. repeat split. discriminate.
Qed.

(** The theorem at the test address and body, with a backend that accepts
    the event: the event of code 7 is posted as "user.7". *)
Lemma serveEvents_forwards_witness :
  serveEvents doubles.lib doubles.esUp doubles.eventRequest
  = ([CallPostInstanceEvent "inst-1"
        (doubles.marshalEvent
           {| evType := "user.7"; evState := "running";
              evBody := "disk ready" |});
      WriteHeader http.StatusOK;
      Write EmptyString],
     (http.StatusOK, None)).
Proof.
  apply (proj1 (serveEvents_forwards doubles.lib doubles.esUp
                  doubles.eventRequest doubles.clientHost "4000"%string
                  doubles.clientHost "inst-1"%string
                  eq_refl eq_refl eq_refl
                  ltac:(discriminate))
           doubles.eventBody
           {| Code := 7; State := "running"; Message := "disk ready" |}
           _ EmptyString eq_refl ltac:(discriminate) eq_refl eq_refl eq_refl).
Defined.

(** An unknown client is answered 200 and nothing is forwarded: the host
    is no IP, the lookup fails, or the record has no instance. *)
Lemma serveEvents_unknown_client (lib : Lib) (es : eventsServer)
  (req : Request) (host port : string) :
  SplitHostPort lib (RemoteAddr req) = Ok (host, port) ->
  (ParseIP lib host = None \/
   exists ip, ParseIP lib host = Some ip /\
              ((exists e, GetInstanceIDFromIP es ip = Err e) \/
               GetInstanceIDFromIP es ip = Ok EmptyString)) ->
  serveEvents lib es req
  = ([WriteHeader http.StatusOK],
     (http.StatusOK, Some (New "no device found for client address"))).
Proof.
  intros Hs H. unfold serveEvents. rewrite Hs.
  destruct H as [Hp | (ip & Hp & [[e He] | He])]; rewrite Hp;
    [reflexivity | now rewrite He | now rewrite He].
Qed.

(** [es.GetInstanceIDFromIP]: a record without an instance gives the empty
    identifier and no error. *)
Lemma es_no_instance (r : Reporter) (f : HardwareFinder) (ip : IP) :
  f ip = Ok (mkDiscoverer None) ->
  GetInstanceIDFromIP (EventServerForReporterFinder r f) ip = Ok EmptyString.
Proof. intros H. cbn. unfold es_GetInstanceIDFromIP. now rewrite H. Qed.

(** The same through the route as [ServeHTTP] registers it: a record
    without an instance, or a failed lookup, ends in a bare 200, and the
    error returned is not logged. *)
Lemma eventsRoute_unknown_client (lib : Lib) (s : BootsHTTPServer)
  (req : Request) (host port : string) (ip : IP) :
  SplitHostPort lib (RemoteAddr req) = Ok (host, port) ->
  ParseIP lib host = Some ip ->
  (finder s ip = Ok (mkDiscoverer None) \/ exists e, finder s ip = Err e) ->
  eventsRoute lib s req = [WriteHeader http.StatusOK].
Proof.
  intros Hs Hp Hf. unfold eventsRoute.
  rewrite (serveEvents_unknown_client lib _ req host port Hs); [reflexivity|].
  right. exists ip. split; [exact Hp|].
  cbn [GetInstanceIDFromIP EventServerForReporterFinder].
  unfold es_GetInstanceIDFromIP.
  destruct Hf as [Hf | [e Hf]]; rewrite Hf; [now right | left; now exists e].
Qed.

(** An address that does not split is a 400. *)
Lemma serveEvents_unsplittable (lib : Lib) (es : eventsServer) (req : Request)
  (e : error) :
  SplitHostPort lib (RemoteAddr req) = Err e ->
  serveEvents lib es req
  = ([WriteHeader http.StatusBadRequest],
     (http.StatusBadRequest, Some (Wrap e "split host port"))).
Proof. intros H. unfold serveEvents. now rewrite H. Qed.

(** C10, the failing input: the address splits, the host parses, the
    instance resolves, the body is well-formed, and the backend rejects the
    event; the handler answers 400, the status C10 reserves for an
    unsplittable address or a malformed body (the source marks both such
    answers "this should be 500"). *)
Lemma serveEvents_post_failure_is_400 :
  serveEvents doubles.lib doubles.esDown doubles.eventRequest
  = ([CallPostInstanceEvent "inst-1"
        (doubles.marshalEvent
           {| evType := "user.7"; evState := "running";
              evBody := "disk ready" |});
      WriteHeader http.StatusBadRequest],
     (http.StatusBadRequest, Some (New "failed to post userEvent"))).
Proof. reflexivity. Qed.

End boots_facts.

(** ** Phone-home *)

Module phonehome_facts.
Import job boots phonehome boots_facts.
#[local] Open Scope list_scope.

(** What the handler does, with the endpoint in place of its call. *)
Lemma servePhoneHome_inlined (wellFormed : string -> bool)
  (s : BootsHTTPServer) (req : Request) :
  inlined wellFormed (servePhoneHome s req) =
  started "phone-home" ++
  match jobManager s (RemoteAddr req) with
  | Err _ =>
      [WriteHeader http.StatusOK; LogInfo "no job found for client address"]
  | Ok j => ServePhoneHomeEndpoint wellFormed j req
  end ++ deferred "phone-home".
Proof.
  unfold inlined, servePhoneHome. rewrite !flat_map_app.
  destruct (jobManager s (RemoteAddr req)); cbn [flat_map started deferred app];
    now rewrite ?app_nil_r.
Qed.

(** The endpoint: 200 unless the body is malformed, then 400. *)
Lemma endpoint_status (wellFormed : string -> bool) (j : Job) (req : Request) :
  status (ServePhoneHomeEndpoint wellFormed j req)
  = Some (if malformed wellFormed req then http.StatusBadRequest
          else http.StatusOK).
Proof.
  unfold ServePhoneHomeEndpoint, malformed.
  destruct (Body req) as [b|e]; [|reflexivity].
  destruct (wellFormed b); reflexivity.
Qed.

Lemma resolve_inventory (bk bk' : Backend) (addr : string) :
  inventory bk' = inventory bk -> resolve bk' addr = resolve bk addr.
Proof. intros H. unfold resolve. now rewrite H. Qed.

(** [record] is a backend of the kind the theorem is about. *)
Lemma record_event (id payload : string) (bk : Backend) :
  exists bk',
    record (CallPostInstanceEvent id payload) bk = Some bk' /\
    inventory bk' = inventory bk /\
    instanceEvents bk' = instanceEvents bk ++ [(id, payload)].
Proof. eexists. repeat split. Qed.

Lemma record_local (e : effect) (bk : Backend) :
  reachesBackend e = false -> record e bk = Some bk.
Proof. destruct e; cbn; intros H; (reflexivity || discriminate). Qed.

Section Contract.

(** The backend: any that records a posted event, keeping its inventory,
    and is left alone by effects that do not reach it.  What it does on the
    job methods outside src/ is left open. *)
Variable react : effect -> Backend -> option Backend.

Hypothesis react_event : forall id payload bk,
  exists bk',
    react (CallPostInstanceEvent id payload) bk = Some bk' /\
    inventory bk' = inventory bk /\
    instanceEvents bk' = instanceEvents bk ++ [(id, payload)].

Hypothesis react_local : forall e bk,
  reachesBackend e = false -> react e bk = Some bk.

(** Effects on the backend pass over the counters. *)
Lemma afterWith_framed (op : string) (mid : list effect) (bk : Backend) :
  afterWith react (started op ++ mid ++ deferred op) bk = afterWith react mid bk.
Proof.
  cbn [started app afterWith]. rewrite !react_local by reflexivity.
  revert bk. induction mid as [|e mid IH]; intros bk.
  - cbn [app deferred afterWith]. now rewrite !react_local by reflexivity.
  - cbn [app afterWith]. destruct (react e bk) as [bk'|]; [apply IH | reflexivity].
Qed.

(** One request from an address that resolves, with a well-formed body. *)
Lemma one_post (wellFormed : string -> bool)
  (wf : option WorkflowFinder) (r : Reporter) (f : HardwareFinder)
  (req : Request) (bk : Backend) (j : Job) (b : string) :
  resolve bk (RemoteAddr req) = Ok j ->
  Body req = Ok b -> wellFormed b = true ->
  inlined wellFormed (servePhoneHome (mkServer wf r f (resolve bk)) req)
  = started "phone-home"
    ++ [CallPostInstanceEvent (InstanceID j) b; WriteHeader http.StatusOK;
        Write EmptyString]
    ++ deferred "phone-home" /\
  exists bk',
    afterWith react
      (inlined wellFormed (servePhoneHome (mkServer wf r f (resolve bk)) req)) bk
    = Some bk' /\
    inventory bk' = inventory bk /\
    instanceEvents bk' = instanceEvents bk ++ [(InstanceID j, b)].
Proof.
  intros Hj Hb Hw.
  rewrite servePhoneHome_inlined. cbn [jobManager]. rewrite Hj.
  unfold ServePhoneHomeEndpoint. rewrite Hb, Hw.
  split; [reflexivity|].
  rewrite afterWith_framed. cbn [afterWith].
  destruct (react_event (InstanceID j) b bk) as (bk' & Hr & Hi & He).
  rewrite Hr, !react_local by reflexivity. now exists bk'.
Qed.


End Contract.


End phonehome_facts.

(** ** The job handlers, beyond their gates *)

Module handlers_facts.
Import job boots observe.
#[local] Open Scope list_scope.

(** What a job handler does between its counters: it answers itself with
    one header and one log line, or hands the response to one job method,
    or panics. *)
Inductive ownPart (ep : jobEndpoint) (s : BootsHTTPServer) (req : Request)
  : list effect -> Prop :=
| Answered (code : Z) (line : effect) :
    code = (if match ep with PhoneHomeEndpoint => true | _ => false end
            then http.StatusOK else http.StatusNotFound) ->
    (exists msg, line = LogError msg \/ line = LogInfo msg) ->
    ownPart ep s req [WriteHeader code; line]
| Delegated (call : effect) :
    isCall call = true ->
    ownPart ep s req [call]
| Panicked (msg : string) (j : Job) :
    ep = HardwareEndpoint ->
    jobManager s (RemoteAddr req) = Ok j ->
    CanWorkflow j = true ->
    workflowFinder s = None ->
    ownPart ep s req [Panic msg].

Lemma handle_shape (ep : jobEndpoint) (s : BootsHTTPServer) (req : Request) :
  exists mid,
    handle ep s req = started (label ep) ++ mid ++ deferred (label ep) /\
    ownPart ep s req mid.
Proof.
  destruct ep; cbn [handle label];
    unfold serveJobFile, serveHardware, servePhoneHome, serveProblem;
    cbn [handlerJobManager];
    destruct (jobManager s (RemoteAddr req)) as [j|e] eqn:Hj;
    try (eexists; split; [reflexivity|];
         apply Answered; [reflexivity | eexists; eauto]).
  - destruct (AllowPXE j); cbn [negb]; eexists; (split; [reflexivity|]).
    + now apply Delegated.
    + apply Answered; [reflexivity | eexists; eauto].
  - destruct (CanWorkflow j) eqn:Hc.
    + destruct (workflowFinder s) as [wf|] eqn:Hw.
      * destruct (wf (HardwareID j)) as [[|]|e]; cbn [negb];
          eexists; (split; [reflexivity|]);
          first [ now apply Delegated
                | apply Answered; [reflexivity | eexists; eauto] ].
      * eexists; split; [reflexivity|]. now apply (Panicked _ _ _ _ j).
    + eexists; split; [reflexivity|]. now apply Delegated.
  - eexists; split; [reflexivity|]. now apply Delegated.
  - destruct (CanWorkflow j), (workflowFinder s) as [wf|];
      try (eexists; split; [reflexivity|]; now apply Delegated).
    destruct (wf (HardwareID j)) as [[|]|e]; cbn [negb];
      eexists; (split; [reflexivity|]);
      first [ now apply Delegated
            | apply Answered; [reflexivity | eexists; eauto] ].
Qed.

(** The observations of a handler are those of its own part. *)
Lemma headers_framed (op : string) (mid : list effect) :
  headers (started op ++ mid ++ deferred op) = headers mid.
Proof.
  cbn [started app headers].
  induction mid as [|e mid IH]; [reflexivity|].
  destruct e; cbn [app headers]; rewrite ?IH; reflexivity.
Qed.

Lemma calls_framed (op : string) (mid : list effect) :
  calls (started op ++ mid ++ deferred op) = calls mid.
Proof.
  unfold calls. rewrite !filter_app. cbn [started deferred filter isCall].
  now rewrite app_nil_r.
Qed.

Lemma panics_framed (op : string) (mid : list effect) :
  panics (started op ++ mid ++ deferred op) = panics mid.
Proof.
  unfold panics. rewrite !existsb_app.
  cbn [started deferred existsb isPanic orb]. now rewrite orb_false_r.
Qed.

(** X1: every job handler gives exactly one answer: it writes one header
    itself (404, or 200 for phone-home) and calls no job method, or it
    calls one job method and writes no header, or, for
    /hardware-components only, it panics having done neither. *)
Theorem one_answer (ep : jobEndpoint) (s : BootsHTTPServer) (req : Request) :
  (headers (handle ep s req)
   = [if match ep with PhoneHomeEndpoint => true | _ => false end
      then http.StatusOK else http.StatusNotFound] /\
   calls (handle ep s req) = [] /\ panics (handle ep s req) = false) \/
  (headers (handle ep s req) = [] /\
   (exists call, calls (handle ep s req) = [call]) /\
   panics (handle ep s req) = false) \/
  (headers (handle ep s req) = [] /\ calls (handle ep s req) = [] /\
   panics (handle ep s req) = true /\ ep = HardwareEndpoint).
Proof.
  destruct (handle_shape ep s req) as (mid & E & Hmid). rewrite E.
  rewrite headers_framed, calls_framed, panics_framed.
  destruct Hmid as [code line Hcode (msg & [Hl | Hl]) | call Hcall | msg j Hep _ _ _].
  - left. subst. repeat split.
  - left. subst. repeat split.
  - right; left. unfold calls. cbn [filter headers]. rewrite Hcall.
    destruct call; try discriminate; repeat split; eexists; reflexivity.
  - right; right. repeat split. exact Hep.
Qed.

(** X2: when the job resolves and can run workflows and the server has
    no workflow finder, /hardware-components panics on the nil finder: it
    writes no header and calls no job method, and its two deferred calls
    still run; /problem, which checks for the nil finder, serves the same
    request. *)
Theorem nil_finder_panics (s : BootsHTTPServer) (req : Request) (j : Job)
  (Hj : jobManager s (RemoteAddr req) = Ok j)
  (Hcan : CanWorkflow j = true)
  (Hnil : workflowFinder s = None) :
  (exists msg,
     serveHardware s req
     = started "hardware-components" ++ [Panic msg]
       ++ deferred "hardware-components") /\
  panics (serveHardware s req) = true /\
  headers (serveHardware s req) = [] /\
  calls (serveHardware s req) = [] /\
  serveProblem s req
  = started "problem" ++ [CallServeProblemEndpoint j] ++ deferred "problem" /\
  panics (serveProblem s req) = false.
Proof.
  unfold serveHardware, serveProblem. rewrite Hj, Hcan, Hnil.
  split; [eexists; reflexivity | repeat split].
Qed.

Lemma nil_finder_panics_witness :
  panics (serveHardware (doubles.serverWith None) doubles.eventRequest) = true /\
  panics (serveProblem (doubles.serverWith None) doubles.eventRequest) = false.
Proof.
  pose proof (nil_finder_panics (doubles.serverWith None) doubles.eventRequest
                doubles.workflowJob eq_refl eq_refl eq_refl)
    as (_ & Hh & _ & _ & _ & Hp).
  split; [exact Hh | exact Hp].
Defined.

(** The counters see only the frame. *)
Lemma ownPart_no_metric (ep : jobEndpoint) (s : BootsHTTPServer)
  (req : Request) (mid : list effect) :
  ownPart ep s req mid -> forallb (fun e => negb (isMetric e)) mid = true.
Proof.
  intros [code line _ (msg & [Hl | Hl]) | call Hcall | msg j _ _ _ _];
    subst; try reflexivity.
  destruct call; try discriminate; reflexivity.
Qed.

Lemma jobsTotal_quiet (op : string) (mid rest : list effect) :
  forallb (fun e => negb (isMetric e)) mid = true ->
  jobsTotal op (mid ++ rest) = jobsTotal op rest.
Proof.
  induction mid as [|e mid IH]; [reflexivity|]. cbn [forallb].
  intros H. apply andb_prop in H. destruct H as [He Hm].
  destruct e; try discriminate; cbn [app jobsTotal]; auto.
Qed.

Lemma observed_quiet (op : string) (mid rest : list effect) :
  forallb (fun e => negb (isMetric e)) mid = true ->
  observed op (mid ++ rest) = observed op rest.
Proof.
  induction mid as [|e mid IH]; [reflexivity|]. cbn [forallb].
  intros H. apply andb_prop in H. destruct H as [He Hm].
  destruct e; try discriminate; cbn [app observed]; auto.
Qed.

Lemma jobsInProgress_quiet (op : string) (mid rest : list effect) (g : Z) :
  forallb (fun e => negb (isMetric e)) mid = true ->
  jobsInProgress op (mid ++ rest) g = jobsInProgress op rest g.
Proof.
  induction mid as [|e mid IH]; [reflexivity|]. cbn [forallb].
  intros H. apply andb_prop in H. destruct H as [He Hm].
  destruct e; try discriminate; cbn [app jobsInProgress]; auto.
Qed.

(** X3: on every path of every job handler, the panic included, the
    handler counts one job and one duration under its own label and
    leaves the in-progress gauge of every label at the value it found;
    counters of other labels are not touched. *)
Theorem counters_balanced (ep : jobEndpoint) (s : BootsHTTPServer)
  (req : Request) (op : string) (g : Z) :
  jobsInProgress op (handle ep s req) g = g /\
  jobsTotal op (handle ep s req)
  = (if String.eqb (label ep) op then 1 else 0) /\
  observed op (handle ep s req)
  = (if String.eqb (label ep) op then 1 else 0).
Proof.
  destruct (handle_shape ep s req) as (mid & E & Hmid). rewrite E.
  apply ownPart_no_metric in Hmid.
  cbn [started app jobsInProgress jobsTotal observed].
  rewrite jobsInProgress_quiet, jobsTotal_quiet, observed_quiet by exact Hmid.
  cbn [deferred jobsInProgress jobsTotal observed].
  destruct (String.eqb (label ep) op); repeat split; lia.
Qed.

(** X4: unless /hardware-components panics, /problem does for a request
    what /hardware-components does, with its own counter label and its own
    job method: the two handlers take the same decision. *)
Theorem problem_as_hardware (s : BootsHTTPServer) (req : Request)
  (Hno : panics (serveHardware s req) = false) :
  serveProblem s req = map asProblem (serveHardware s req).
Proof.
  revert Hno. unfold serveProblem, serveHardware.
  destruct (jobManager s (RemoteAddr req)) as [j|e]; [|reflexivity].
  destruct (CanWorkflow j); [|destruct (workflowFinder s); reflexivity].
  destruct (workflowFinder s) as [wf|]; [|cbn; discriminate].
  intros _. destruct (wf (HardwareID j)) as [[|]|e]; reflexivity.
Qed.

Lemma problem_as_hardware_witness :
  panics (serveHardware (doubles.serverWith (Some (fun _ => Ok false)))
            doubles.eventRequest) = false /\
  serveProblem (doubles.serverWith (Some (fun _ => Ok false)))
    doubles.eventRequest
  = map asProblem
      (serveHardware (doubles.serverWith (Some (fun _ => Ok false)))
         doubles.eventRequest).
Proof.
  split; [reflexivity|].
  apply (problem_as_hardware
           (doubles.serverWith (Some (fun _ => Ok false)))
           doubles.eventRequest).
  reflexivity.
Defined.

End handlers_facts.

(** ** The events handler, on every path *)

Module events_facts.
Import job boots observe boots_facts.
#[local] Open Scope list_scope.

(** Every branch of [serveEvents], one goal each. *)
Ltac branches :=
  unfold serveEvents;
  repeat match goal with
    | |- context [match ?x with _ => _ end] => destruct x eqn:?
    end;
  cbv zeta.

(** The header written and the status returned, on every path. *)
Lemma header_is_status (lib : Lib) (es : eventsServer) (req : Request) :
  headers (fst (serveEvents lib es req)) = [fst (snd (serveEvents lib es req))] /\
  (fst (snd (serveEvents lib es req)) = http.StatusOK \/
   fst (snd (serveEvents lib es req)) = http.StatusBadRequest).
Proof. branches; cbn; split; auto. Qed.

(** No error is returned without an event posted and a 200. *)
Lemma nil_error_posted (lib : Lib) (es : eventsServer) (req : Request) :
  snd (snd (serveEvents lib es req)) = None ->
  fst (snd (serveEvents lib es req)) = http.StatusOK /\
  posted (fst (serveEvents lib es req)) <> [].
Proof.
  branches; cbn; intros H; try discriminate H.
  split; [reflexivity | discriminate].
Qed.

(** X5: on every path [serveEvents] writes exactly one header, the status
    it returns is the one it wrote, and that status is 200 or 400. *)
Theorem serveEvents_one_header (lib : Lib) (es : eventsServer) (req : Request) :
  headers (fst (serveEvents lib es req)) = [fst (snd (serveEvents lib es req))] /\
  (fst (snd (serveEvents lib es req)) = http.StatusOK \/
   fst (snd (serveEvents lib es req)) = http.StatusBadRequest).
Proof. branches; cbn; split; auto. Qed.

(** X6: [serveEvents] returns no error exactly when it posted the event,
    wrote 200 and wrote the empty body; a 200 alone does not tell: the
    answer to an unknown client is a 200 with an error. *)
Theorem serveEvents_nil_error_iff (lib : Lib) (es : eventsServer)
  (req : Request) :
  (snd (snd (serveEvents lib es req)) = None <->
   exists id payload,
     fst (serveEvents lib es req)
     = [CallPostInstanceEvent id payload; WriteHeader http.StatusOK;
        Write EmptyString]) /\
  (snd (snd (serveEvents lib es req)) = None <->
   fst (snd (serveEvents lib es req)) = http.StatusOK /\
   posted (fst (serveEvents lib es req)) <> []).
Proof.
  branches; cbn; (split; split; intros H);
    try discriminate H;
    try (destruct H as (? & ? & H); discriminate H);
    try (match type of H with
         | _ /\ _ =>
             destruct H as [Hcode Hposted];
             first [ vm_compute in Hcode; discriminate Hcode
                   | exfalso; apply Hposted; reflexivity ]
         end);
    try (do 2 eexists; reflexivity);
    try (split; [reflexivity | discriminate]).
Qed.

(** X7: an event reaches the backend only for a client address that
    resolved to an instance and a non-empty body that decoded; it is the
    only event of the request, it goes to that instance, and its payload
    is the encoding of the event built from the decoded body. *)
Theorem serveEvents_posts_only_decoded (lib : Lib) (es : eventsServer)
  (req : Request) (id payload : string)
  (Hin : In (id, payload) (posted (fst (serveEvents lib es req)))) :
  posted (fst (serveEvents lib es req)) = [(id, payload)] /\
  id <> EmptyString /\
  exists host port ip b res,
    SplitHostPort lib (RemoteAddr req) = Ok (host, port) /\
    ParseIP lib host = Some ip /\
    GetInstanceIDFromIP es ip = Ok id /\
    Body req = Ok b /\ b <> EmptyString /\
    Unmarshal lib b = Ok res /\
    Marshal lib (eventOf res) = Ok payload.
Proof.
  revert Hin. branches; cbn; intros Hin;
    try contradiction;
    (destruct Hin as [Hin | []]; injection Hin as <- <-);
    (split; [reflexivity|]);
    (split; [now apply String.eqb_neq|]);
    match goal with
    | H : readClose (Body req) = Ok ?b |- _ =>
        destruct (Body req) as [b'|] eqn:Hb; cbn in H; [|discriminate];
        injection H as ->
    end;
    do 5 eexists; repeat split; try eassumption; try reflexivity;
    intros ->; discriminate.
Qed.

Lemma serveEvents_posts_only_decoded_witness :
  posted (fst (serveEvents doubles.lib doubles.esDown doubles.eventRequest))
  = [("inst-1"%string,
      doubles.marshalEvent
        {| evType := "user.7"; evState := "running";
           evBody := "disk ready" |})].
Proof.
  apply (serveEvents_posts_only_decoded doubles.lib doubles.esDown
           doubles.eventRequest).
  left. reflexivity.
Defined.

(** X8: the bare 200 that answers an unknown client is decided by the
    remote address and the instance lookup alone: the body is not read and
    the backend is not called, so any other body and any other reporter
    give the same answer. *)
Theorem bare_200_ignores_body (lib : Lib) (es es' : eventsServer)
  (req req' : Request)
  (Hbare : fst (serveEvents lib es req) = [WriteHeader http.StatusOK])
  (Haddr : RemoteAddr req' = RemoteAddr req)
  (Hlookup : forall ip, GetInstanceIDFromIP es' ip = GetInstanceIDFromIP es ip) :
  serveEvents lib es' req' = serveEvents lib es req.
Proof.
  revert Hbare. unfold serveEvents. rewrite Haddr.
  destruct (SplitHostPort lib (RemoteAddr req)) as [[host port]|e];
    [|discriminate].
  destruct (ParseIP lib host) as [ip|]; [|reflexivity].
  rewrite Hlookup.
  destruct (GetInstanceIDFromIP es ip) as [id|e]; [|reflexivity].
  destruct (String.eqb id EmptyString); [reflexivity|].
  destruct (readClose (Body req)) as [b|e]; [|discriminate].
  destruct (Nat.eqb (String.length b) 0); [discriminate|].
  destruct (Unmarshal lib b) as [res|e]; [|discriminate].
  cbv zeta. destruct (Marshal lib (eventOf res)) as [payload|e]; [|discriminate].
  destruct (PostInstanceEvent es id payload); discriminate.
Qed.

Lemma bare_200_ignores_body_witness :
  serveEvents doubles.lib doubles.esDown more_doubles.brokenBodyRequest
  <> serveEvents doubles.lib doubles.esDown doubles.eventRequest /\
  serveEvents doubles.lib more_doubles.esNoInstance
    more_doubles.brokenBodyRequest
  = serveEvents doubles.lib more_doubles.esNoInstance doubles.eventRequest.
Proof.
  split; [discriminate|].
  apply (bare_200_ignores_body doubles.lib more_doubles.esNoInstance
           more_doubles.esNoInstance doubles.eventRequest
           more_doubles.brokenBodyRequest);
    reflexivity.
Defined.

Lemma serveEvents_logs_nothing (lib : Lib) (es : eventsServer) (req : Request) :
  errorsLogged (fst (serveEvents lib es req)) = [].
Proof. branches; reflexivity. Qed.

Lemma headers_snoc_log (tr : list effect) (e : error) :
  headers (tr ++ [LogError e]) = headers tr.
Proof.
  induction tr as [|x tr IH]; [reflexivity|].
  destruct x; cbn [app headers]; now rewrite ?IH.
Qed.

Lemma posted_snoc_log (tr : list effect) (e : error) :
  posted (tr ++ [LogError e]) = posted tr.
Proof.
  induction tr as [|x tr IH]; [reflexivity|].
  destruct x; cbn [app posted]; now rewrite ?IH.
Qed.

Lemma errorsLogged_snoc_log (tr : list effect) (e : error) :
  errorsLogged (tr ++ [LogError e]) = errorsLogged tr ++ [e].
Proof.
  induction tr as [|x tr IH]; [reflexivity|].
  destruct x; cbn [app errorsLogged]; now rewrite ?IH.
Qed.

(** X9: the route registered for "/events" answers as [serveEvents] does
    and adds one line to the error log exactly when the status is 400; a
    200 is never logged, not even the 200 that carries an error. *)
Theorem eventsRoute_logs_400 (lib : Lib) (s : BootsHTTPServer) (req : Request) :
  headers (eventsRoute lib s req)
  = headers (fst (serveEvents lib
                    (EventServerForReporterFinder (reporter s) (finder s)) req)) /\
  posted (eventsRoute lib s req)
  = posted (fst (serveEvents lib
                   (EventServerForReporterFinder (reporter s) (finder s)) req)) /\
  (headers (eventsRoute lib s req) = [http.StatusBadRequest] /\
   (exists e, errorsLogged (eventsRoute lib s req) = [e]) \/
   headers (eventsRoute lib s req) = [http.StatusOK] /\
   errorsLogged (eventsRoute lib s req) = []).
Proof.
  unfold eventsRoute.
  generalize (EventServerForReporterFinder (reporter s) (finder s)) as es.
  intros es.
  pose proof (header_is_status lib es req) as [Hh Hc].
  pose proof (serveEvents_logs_nothing lib es req) as Hl.
  pose proof (nil_error_posted lib es req) as Hn.
  destruct (serveEvents lib es req) as [did [code err]].
  cbn [fst snd] in *.
  destruct err as [e|].
  - destruct Hc as [Hc | Hc]; subst code; cbn [Z.eqb negb http.StatusOK
      http.StatusBadRequest Pos.eqb].
    + repeat split. right. now split.
    + rewrite headers_snoc_log, posted_snoc_log, errorsLogged_snoc_log, Hl.
      repeat split. left. split; [exact Hh | now exists e].
  - destruct (Hn eq_refl) as [Hc' _]. subst code.
    repeat split. right. now split.
Qed.

(** X10: through the route, an event goes to the reporter under the ID of
    the instance the hardware finder returned for the client's IP; the
    answer is 200 with the empty body when the reporter accepts it, and
    400 with the failure logged when it does not. *)
Theorem eventsRoute_posts_to_instance (lib : Lib) (s : BootsHTTPServer)
  (req : Request) (host port : string) (ip : IP) (id b : string)
  (res : userEvent) (payload : string)
  (Hsplit : SplitHostPort lib (RemoteAddr req) = Ok (host, port))
  (Hip : ParseIP lib host = Some ip)
  (Hfind : finder s ip = Ok (mkDiscoverer (Some (mkInstance id))))
  (Hid : id <> EmptyString)
  (Hbody : Body req = Ok b) (Hne : b <> EmptyString)
  (Hdec : Unmarshal lib b = Ok res)
  (Henc : Marshal lib (eventOf res) = Ok payload) :
  posted (eventsRoute lib s req) = [(id, payload)] /\
  (forall ack, reporter s id payload = Ok ack ->
     eventsRoute lib s req
     = [CallPostInstanceEvent id payload; WriteHeader http.StatusOK;
        Write EmptyString]) /\
  (forall e, reporter s id payload = Err e ->
     eventsRoute lib s req
     = [CallPostInstanceEvent id payload; WriteHeader http.StatusBadRequest;
        LogError "failed to post userEvent"]).
Proof.
  unfold eventsRoute.
  rewrite (serveEvents_resolved lib _ req host port ip id Hsplit Hip);
    [| cbn; unfold es_GetInstanceIDFromIP; now rewrite Hfind | exact Hid].
  rewrite Hbody. cbn [readClose].
  destruct (Nat.eqb (String.length b) 0) eqn:Hl;
    [apply length_zero_iff in Hl; congruence|].
  rewrite Hdec, Henc.
  cbn [PostInstanceEvent EventServerForReporterFinder]. unfold es_PostInstanceEvent.
  destruct (reporter s id payload) as [ack|e]; cbn;
    repeat split; intros; congruence.
Qed.

Lemma eventsRoute_posts_to_instance_witness :
  eventsRoute doubles.lib
    (more_doubles.serverFor "inst-9" (fun _ _ => Err "connection refused"))
    doubles.eventRequest
  = [CallPostInstanceEvent "inst-9"
       (doubles.marshalEvent
          {| evType := "user.7"; evState := "running";
             evBody := "disk ready" |});
     WriteHeader http.StatusBadRequest;
     LogError "failed to post userEvent"].
Proof.
  apply (proj2 (proj2 (eventsRoute_posts_to_instance doubles.lib
           (more_doubles.serverFor "inst-9" (fun _ _ => Err "connection refused"))
           doubles.eventRequest doubles.clientHost "4000"%string
           doubles.clientHost "inst-9"%string doubles.eventBody
           {| Code := 7; State := "running"; Message := "disk ready" |}
           _ eq_refl eq_refl eq_refl ltac:(discriminate) eq_refl
           ltac:(discriminate) eq_refl eq_refl))
         "connection refused"%string eq_refl).
Defined.

(** X11: through the route, a client whose host is no IP, whose lookup
    fails, whose hardware record has no instance, or whose instance has an
    empty ID, gets a bare 200: nothing is posted and nothing is logged. *)
Theorem eventsRoute_unknown_is_bare_200 (lib : Lib) (s : BootsHTTPServer)
  (req : Request) (host port : string)
  (Hsplit : SplitHostPort lib (RemoteAddr req) = Ok (host, port))
  (Hunknown :
     ParseIP lib host = None \/
     exists ip, ParseIP lib host = Some ip /\
       ((exists e, finder s ip = Err e) \/
        finder s ip = Ok (mkDiscoverer None) \/
        finder s ip = Ok (mkDiscoverer (Some (mkInstance EmptyString))))) :
  eventsRoute lib s req = [WriteHeader http.StatusOK].
Proof.
  unfold eventsRoute.
  rewrite (serveEvents_unknown_client lib _ req host port Hsplit);
    [reflexivity|].
  destruct Hunknown as [Hp | (ip & Hp & Hf)]; [now left|].
  right. exists ip. split; [exact Hp|].
  cbn [GetInstanceIDFromIP EventServerForReporterFinder].
  unfold es_GetInstanceIDFromIP.
  destruct Hf as [[e Hf] | [Hf | Hf]]; rewrite Hf;
    [left; now exists e | now right | now right].
Qed.

Lemma eventsRoute_unknown_is_bare_200_witness :
  eventsRoute doubles.lib (more_doubles.serverFor EmptyString (fun _ _ => Ok EmptyString))
    doubles.eventRequest
  = [WriteHeader http.StatusOK].
Proof.
  apply (eventsRoute_unknown_is_bare_200 doubles.lib
           (more_doubles.serverFor EmptyString (fun _ _ => Ok EmptyString))
           doubles.eventRequest doubles.clientHost "4000"%string eq_refl).
  right. exists doubles.clientHost. split; [reflexivity|].
  right. right. reflexivity.
Defined.

Lemma Itoa_injective (i j : Z) : strconv.Itoa i = strconv.Itoa j -> i = j.
Proof.
  intros H.
  pose proof (strconv_facts.Itoa_reads_back i) as Hi.
  pose proof (strconv_facts.Itoa_reads_back j) as Hj.
  rewrite H in Hi. congruence.
Qed.

(** X17: the event built for the backend loses nothing of the decoded
    body: two bodies that differ in code, state or message are forwarded
    as different events, and the code reads back from the "user." tag. *)
Theorem eventOf_injective (res res' : userEvent) :
  (eventOf res = eventOf res' -> res = res') /\
  (exists digits,
     evType (eventOf res) = ("user." ++ digits)%string /\
     option_map Z.of_int (DecimalString.NilZero.int_of_string digits)
     = Some (Code res)).
Proof.
  split.
  - destruct res as [c st m], res' as [c' st' m']. unfold eventOf. cbn.
    intros H. injection H as Hc Hs Hm.
    apply Itoa_injective in Hc. congruence.
  - exists (strconv.Itoa (Code res)). split; [reflexivity|].
    apply strconv_facts.Itoa_reads_back.
Qed.

End events_facts.

(** ** The test helper [replacer] *)

Module replacer_facts.
Import strings flatcar replacements strings_facts flatcar_facts.
#[local] Open Scope list_scope.

Lemma oneLine_append (a b : string) :
  oneLine (a ++ b)%string = oneLine a && oneLine b.
Proof.
  induction a as [|c a IH]; [reflexivity|].
  cbn [append oneLine]. now rewrite IH, andb_assoc.
Qed.

Lemma oneLine_replaceFrom (old new : string) :
  oneLine new = true ->
  forall (s : string) (skip : nat),
    oneLine s = true -> oneLine (replaceFrom old new skip s) = true.
Proof.
  intros Hnew. induction s as [|c s IH]; intros skip Hs; [reflexivity|].
  cbn [oneLine] in Hs. apply andb_prop in Hs. destruct Hs as [Hc Hs].
  cbn [replaceFrom]. destruct skip as [|k]; [|now apply IH].
  destruct (HasPrefix (String c s) old).
  - rewrite oneLine_append, Hnew. now apply IH.
  - cbn [oneLine]. rewrite Hc. now apply IH.
Qed.

Lemma oneLine_ReplaceAll (s old new : string) :
  old <> EmptyString -> oneLine new = true -> oneLine s = true ->
  oneLine (ReplaceAll s old new) = true.
Proof.
  intros Hold Hnew Hs. unfold ReplaceAll.
  destruct old; [congruence|]. now apply oneLine_replaceFrom.
Qed.

(** A one-line pattern is replaced in each line of a script on its own. *)
Lemma ReplaceAll_Join (l : list string) (old new : string) :
  oneLine old = true -> old <> EmptyString ->
  ReplaceAll (Join l nl) old new
  = Join (map (fun line => ReplaceAll line old new) l) nl.
Proof.
  intros Hone Hne. induction l as [|e l IH].
  - cbn. unfold ReplaceAll. destruct old; [congruence | reflexivity].
  - destruct l as [|e' l]; [reflexivity|].
    rewrite Join_cons by discriminate.
    rewrite ReplaceAll_nl by assumption. rewrite IH.
    cbn [map]. rewrite (Join_cons (ReplaceAll e old new)) by discriminate.
    reflexivity.
Qed.

(** Replacements by pairs: what holds for the empty list, for a single
    left-over string, and is kept by one more pair, holds for all. *)
Lemma pairs_ind (P : list string -> Prop) :
  P [] -> (forall x, P [x]) ->
  (forall old new rest, P rest -> P (old :: new :: rest)) ->
  forall l, P l.
Proof.
  intros H0 H1 H2.
  fix IH 1. intros [|a [|b l]]; [exact H0 | apply H1 | apply H2, IH].
Qed.

Lemma replaceEach_Join (replacements l : list string) :
  linewise replacements = true ->
  replaceEach (Join l nl) replacements
  = Join (map (fun line => replaceEach line replacements) l) nl.
Proof.
  revert l. induction replacements as [| x | old new rest IH] using pairs_ind;
    intros l H.
  - cbn [replaceEach]. now rewrite map_id.
  - cbn [replaceEach]. now rewrite map_id.
  - cbn [linewise] in H.
    apply andb_prop in H. destruct H as [H Hrest].
    apply andb_prop in H. destruct H as [H Hnew].
    apply andb_prop in H. destruct H as [Hne Hold].
    apply negb_true_iff, String.eqb_neq in Hne.
    cbn [replaceEach]. rewrite ReplaceAll_Join by assumption.
    rewrite IH by exact Hrest. now rewrite map_map.
Qed.

Lemma oneLine_replaceEach (replacements : list string) (line : string) :
  linewise replacements = true -> oneLine line = true ->
  oneLine (replaceEach line replacements) = true.
Proof.
  revert line.
  induction replacements as [| x | old new rest IH] using pairs_ind;
    intros line H Hl; try exact Hl.
  cbn [linewise] in H.
  apply andb_prop in H. destruct H as [H Hrest].
  apply andb_prop in H. destruct H as [H Hnew].
  apply andb_prop in H. destruct H as [Hne Hold].
  apply negb_true_iff, String.eqb_neq in Hne.
  cbn [replaceEach]. apply IH; [exact Hrest|].
  now apply oneLine_ReplaceAll.
Qed.

(** [Split] reads a one-line prefix into the piece it is building. *)
Lemma splitOn_oneLine (a cur rest : string) :
  oneLine a = true ->
  splitOn (ascii_of_nat 10) cur (a ++ rest)%string
  = splitOn (ascii_of_nat 10) (cur ++ a)%string rest.
Proof.
  revert cur. induction a as [|c a IH]; intros cur H.
  - cbn [append]. now rewrite append_nil_r.
  - cbn [oneLine] in H. apply andb_prop in H. destruct H as [Hc Ha].
    apply negb_true_iff in Hc.
    cbn [append splitOn]. rewrite Hc, IH by exact Ha.
    now rewrite append_assoc.
Qed.

(** Splitting the join of one-line strings gives them back. *)
Lemma SplitLines_Join (l : list string) :
  l <> [] -> forallb oneLine l = true -> SplitLines (Join l nl) = l.
Proof.
  unfold SplitLines. induction l as [|e l IH]; [congruence|].
  intros _ H. cbn [forallb] in H. apply andb_prop in H. destruct H as [He Hl].
  destruct l as [|e' l].
  - cbn [Join].
    rewrite <- (append_nil_r e) at 1. rewrite splitOn_oneLine by exact He.
    reflexivity.
  - rewrite Join_cons by discriminate.
    rewrite splitOn_oneLine by exact He.
    cbn [nl append splitOn]. rewrite Ascii.eqb_refl.
    rewrite IH by (discriminate || exact Hl). reflexivity.
Qed.

Lemma forallb_map_oneLine (replacements l : list string) :
  linewise replacements = true -> forallb oneLine l = true ->
  forallb oneLine (map (fun line => replaceEach line replacements) l) = true.
Proof.
  intros Hr. induction l as [|e l IH]; [reflexivity|].
  cbn [forallb map]. intros H. apply andb_prop in H. destruct H as [He Hl].
  rewrite oneLine_replaceEach, IH by assumption. reflexivity.
Qed.

Lemma odd_count (n : nat) : negb (Nat.eqb (Nat.modulo n 2) 0) = Nat.odd n.
Proof.
  rewrite <- Nat.bit0_mod, Nat.bit0_odd. destruct (Nat.odd n); reflexivity.
Qed.

(** [replacer] on one-line material. *)
Lemma replacer_lines (l replacements : list string) :
  Nat.even (List.length replacements) = true ->
  linewise replacements = true ->
  forallb oneLine l = true ->
  replacer l replacements
  = Some (match l with
          | [] => [EmptyString]
          | _ => map (fun line => replaceEach line replacements) l
          end).
Proof.
  intros Heven Hreps Hlines.
  unfold replacer. rewrite odd_count, <- Nat.negb_even, Heven. cbn [negb].
  f_equal. rewrite replaceEach_Join by exact Hreps.
  destruct l as [|e l].
  - reflexivity.
  - apply SplitLines_Join; [discriminate|].
    now apply forallb_map_oneLine.
Qed.

(** X13: when the number of replacements is even, every pattern is
    non-empty, and no pattern, replacement or line holds a newline,
    [replacer] works line by line: it returns as many lines as it was
    given, each the input line with the replacements applied in turn.
    Given no lines it returns one empty line. *)
Theorem replacer_line_by_line (l replacements : list string)
  (Heven : Nat.even (List.length replacements) = true)
  (Hreps : linewise replacements = true)
  (Hlines : forallb oneLine l = true) :
  replacer l replacements
  = Some (match l with
          | [] => [EmptyString]
          | _ => map (fun line => replaceEach line replacements) l
          end).
Proof.
  unfold replacer. rewrite odd_count, <- Nat.negb_even, Heven. cbn [negb].
  f_equal. rewrite replaceEach_Join by exact Hreps.
  destruct l as [|e l].
  - reflexivity.
  - apply SplitLines_Join; [discriminate|].
    now apply forallb_map_oneLine.
Qed.

Lemma replacer_line_by_line_witness :
  replacer ["a -s"; "b"; "c -s x"] ["-s"; "-s -e 259"; "b"; EmptyString]
  = Some ["a -s -e 259"; EmptyString; "c -s -e 259 x"]%string.
Proof.
  apply (replacer_line_by_line ["a -s"; "b"; "c -s x"]%string
           ["-s"; "-s -e 259"; "b"; EmptyString]%string
           eq_refl eq_refl eq_refl).
Defined.

Lemma ReplaceAll_absent (s old new : string) :
  old <> EmptyString -> Contains s old = false -> ReplaceAll s old new = s.
Proof.
  intros Hne. unfold ReplaceAll. destruct old as [|c old]; [congruence|].
  clear Hne. induction s as [|d s IH]; [reflexivity|].
  cbn [Contains]. intros H. apply orb_false_elim in H. destruct H as [Hp Hc].
  cbn [replaceFrom]. rewrite Hp, IH by exact Hc. reflexivity.
Qed.

Lemma replaceEach_absent (replacements : list string) (line : string) :
  linewise replacements = true -> absent [line] replacements = true ->
  replaceEach line replacements = line.
Proof.
  induction replacements as [| x | old new rest IH] using pairs_ind;
    intros H Ha; try reflexivity.
  cbn [linewise] in H.
  apply andb_prop in H. destruct H as [H Hrest].
  apply andb_prop in H. destruct H as [H _].
  apply andb_prop in H. destruct H as [Hne _].
  apply negb_true_iff, String.eqb_neq in Hne.
  cbn [absent forallb] in Ha. rewrite andb_true_r in Ha.
  apply andb_prop in Ha. destruct Ha as [Hc Ha].
  apply negb_true_iff in Hc.
  cbn [replaceEach]. rewrite ReplaceAll_absent by assumption.
  now apply IH.
Qed.

Lemma absent_cons (e : string) (l replacements : list string) :
  absent (e :: l) replacements
  = absent [e] replacements && absent l replacements.
Proof.
  induction replacements as [| x | old new rest IH] using pairs_ind;
    try reflexivity.
  cbn [absent forallb]. rewrite IH, andb_true_r.
  destruct (negb (Contains e old)), (forallb _ l), (absent [e] rest);
    reflexivity.
Qed.

(** X14: under the same conditions, replacements whose patterns occur in
    none of the lines give the lines back unchanged when there is at least
    one line; given no lines, [replacer] still returns one empty line. *)
Theorem replacer_absent_unchanged (l replacements : list string)
  (Heven : Nat.even (List.length replacements) = true)
  (Hreps : linewise replacements = true)
  (Hlines : forallb oneLine l = true)
  (Habsent : absent l replacements = true) :
  replacer l replacements
  = Some (match l with
          | [] => [EmptyString]
          | _ => l
          end).
Proof.
  rewrite replacer_lines by assumption.
  destruct l as [|e l]; [reflexivity|]. f_equal. clear Hlines.
  revert Habsent. generalize (e :: l) as lines. clear e l.
  induction lines as [|e l IH]; [reflexivity|].
  rewrite absent_cons. intros H. apply andb_prop in H. destruct H as [He Hl].
  cbn [map]. rewrite replaceEach_absent, IH by assumption. reflexivity.
Qed.

Lemma replacer_absent_unchanged_witness :
  replacer baseStart [" -o packet"; EmptyString; "amd64"; "arm64"]%string
  = Some baseStart /\
  replacer [] [" -o packet"; EmptyString; "amd64"; "arm64"]%string
  = Some [EmptyString].
Proof.
  split.
  - apply (replacer_absent_unchanged baseStart
             [" -o packet"; EmptyString; "amd64"; "arm64"]%string);
      reflexivity.
  - reflexivity.
Defined.

Lemma replaceEach_app (first second : list string) (text : string) :
  Nat.even (List.length first) = true ->
  replaceEach text (first ++ second)
  = replaceEach (replaceEach text first) second.
Proof.
  revert text.
  induction first as [| x | old new rest IH] using pairs_ind; intros text H.
  - reflexivity.
  - discriminate.
  - cbn [app replaceEach]. apply IH. exact H.
Qed.

(** X16: [replacer] composes: for an even number of first replacements,
    running [replacer] on its own result with more replacements is
    running it once with all of them, one list after the other; either
    way it panics exactly when the second list is odd. *)
Theorem replacer_twice (l first second : list string)
  (Heven : Nat.even (List.length first) = true) :
  match replacer l first with
  | Some lines => replacer lines second
  | None => None
  end
  = replacer l (first ++ second).
Proof.
  unfold replacer. rewrite !odd_count, length_app, Nat.odd_add.
  rewrite <- (Nat.negb_even (List.length first)), Heven. cbn [negb xorb].
  destruct (Nat.odd (List.length second)); [reflexivity|].
  now rewrite Join_SplitLines, replaceEach_app.
Qed.

Lemma replacer_twice_witness :
  match replacer (Exec "http://osie.example") [" -o packet"; EmptyString]%string with
  | Some lines => replacer lines ["amd64"; "arm64"]%string
  | None => None
  end
  = replacer (Exec "http://osie.example")
      [" -o packet"; EmptyString; "amd64"; "arm64"]%string.
Proof.
  apply (replacer_twice (Exec "http://osie.example")
           [" -o packet"; EmptyString]%string ["amd64"; "arm64"]%string
           eq_refl).
Defined.

End replacer_facts.

(** ** Replacing in a text put together from parts *)

Module substitution_facts.
Import strings flatcar replacements strings_facts flatcar_facts replacer_facts.
#[local] Open Scope list_scope.

Lemma HasPrefix_app_long (old a b : string) :
  String.length old <= String.length a ->
  HasPrefix (a ++ b)%string old = HasPrefix a old.
Proof.
  revert a. induction old as [|c old IH]; intros a H; [reflexivity|].
  destruct a as [|d a]; cbn [String.length] in H; [lia|].
  cbn [append HasPrefix]. rewrite IH by lia. reflexivity.
Qed.

Lemma HasPrefix_app_short (old a b : string) :
  a <> EmptyString -> HasPrefix old a = false ->
  String.length a < String.length old ->
  HasPrefix (a ++ b)%string old = false /\ HasPrefix a old = false.
Proof.
  revert a. induction old as [|c old IH]; intros a Hne Hp Hl.
  - cbn [String.length] in Hl. lia.
  - destruct a as [|d a]; [congruence|].
    cbn [String.length] in Hl. cbn [append HasPrefix] in *.
    rewrite (Ascii.eqb_sym c d).
    destruct (Ascii.eqb d c); [|split; reflexivity]. cbn [andb] in *.
    destruct a as [|d' a].
    + cbn [HasPrefix] in Hp. discriminate.
    + apply IH; [discriminate | exact Hp | cbn [String.length] in *; lia].
Qed.

(** When no match can start in [a] and end after it, the scan of
    [a ++ b] is the scan of [a] followed by the scan of [b]. *)
Lemma replaceFrom_app_start (old new b : string) :
  forall (a : string) (skip : nat),
    danglingStart old a = false -> skip <= String.length a ->
    replaceFrom old new skip (a ++ b)%string
    = (replaceFrom old new skip a ++ replaceFrom old new 0 b)%string.
Proof.
  induction a as [|x a IH]; intros skip Hd Hskip.
  - cbn [String.length] in Hskip. assert (skip = 0) by lia. now subst.
  - cbn [danglingStart] in Hd. apply orb_false_elim in Hd.
    destruct Hd as [Hhead Hd].
    cbn [String.length] in Hskip.
    change (String x a ++ b)%string with (String x (a ++ b)%string).
    destruct skip as [|k]; cbn [replaceFrom]; [|apply IH; [exact Hd | lia]].
    change (String x (a ++ b)%string) with (String x a ++ b)%string.
    assert (E : HasPrefix (String x a ++ b)%string old = HasPrefix (String x a) old).
    { destruct (Nat.ltb (String.length (String x a)) (String.length old)) eqn:Hl.
      - apply Nat.ltb_lt in Hl. cbn [andb] in Hhead.
        destruct (HasPrefix_app_short old (String x a) b) as [E1 E2];
          [discriminate | exact Hhead | exact Hl | congruence].
      - apply Nat.ltb_ge in Hl. now apply HasPrefix_app_long. }
    rewrite E. destruct (HasPrefix (String x a) old) eqn:Hp.
    + apply HasPrefix_length in Hp. cbn [String.length] in Hp.
      rewrite IH by (exact Hd || lia). now rewrite append_assoc.
    + rewrite IH by (exact Hd || lia). reflexivity.
Qed.

Lemma HasPrefix_before (b o : string) :
  startsWithSuffix b o = false ->
  forall a, HasPrefix (a ++ b)%string o = HasPrefix a o.
Proof.
  induction o as [|d o IH]; intros H a; [reflexivity|].
  cbn [startsWithSuffix] in H. apply orb_false_elim in H. destruct H as [Hb Ho].
  destruct a as [|c a].
  - cbn [append]. rewrite Hb. reflexivity.
  - cbn [append HasPrefix]. now rewrite IH.
Qed.

(** The same when no match can end in [b] having started before it. *)
Lemma replaceFrom_app_end (old new b : string) :
  danglingEnd old b = false ->
  forall (a : string) (skip : nat),
    skip <= String.length a ->
    replaceFrom old new skip (a ++ b)%string
    = (replaceFrom old new skip a ++ replaceFrom old new 0 b)%string.
Proof.
  intros Hd. induction a as [|x a IH]; intros skip Hskip.
  - cbn [String.length] in Hskip. assert (skip = 0) by lia. now subst.
  - cbn [String.length] in Hskip.
    change (String x a ++ b)%string with (String x (a ++ b)%string).
    destruct skip as [|k]; cbn [replaceFrom]; [|apply IH; lia].
    assert (E : HasPrefix (String x (a ++ b)%string) old = HasPrefix (String x a) old).
    { destruct old as [|d o]; [reflexivity|].
      cbn [danglingEnd] in Hd. cbn [HasPrefix].
      now rewrite (HasPrefix_before b o Hd). }
    rewrite E. destruct (HasPrefix (String x a) old) eqn:Hp.
    + apply HasPrefix_length in Hp. cbn [String.length] in Hp.
      rewrite IH by lia. now rewrite append_assoc.
    + rewrite IH by lia. reflexivity.
Qed.

Lemma ReplaceAll_app_start (a b old new : string) :
  old <> EmptyString -> danglingStart old a = false ->
  ReplaceAll (a ++ b)%string old new
  = (ReplaceAll a old new ++ ReplaceAll b old new)%string.
Proof.
  intros Hne Hd. unfold ReplaceAll. destruct old; [congruence|].
  apply replaceFrom_app_start; [exact Hd | lia].
Qed.

Lemma ReplaceAll_app_end (a b old new : string) :
  old <> EmptyString -> danglingEnd old b = false ->
  ReplaceAll (a ++ b)%string old new
  = (ReplaceAll a old new ++ ReplaceAll b old new)%string.
Proof.
  intros Hne Hd. unfold ReplaceAll. destruct old; [congruence|].
  apply replaceFrom_app_end; [exact Hd | lia].
Qed.

Lemma length_append_string (a b : string) :
  String.length (a ++ b)%string = String.length a + String.length b.
Proof. induction a as [|x a IH]; cbn; [reflexivity | now rewrite IH]. Qed.

(** A replacement by something longer never shortens the text, counting
    the bytes the scan still has to skip. *)
Lemma replaceFrom_length (old new : string) :
  old <> EmptyString -> String.length old <= String.length new ->
  forall (s : string) (skip : nat),
    String.length s <= String.length (replaceFrom old new skip s) + skip.
Proof.
  intros Hne Hlen. induction s as [|c s IH]; intros skip; [cbn; lia|].
  cbn [replaceFrom String.length]. destruct skip as [|k].
  - destruct (HasPrefix (String c s) old).
    + rewrite length_append_string.
      specialize (IH (String.length old - 1)).
      assert (1 <= String.length old) by (destruct old; [congruence | cbn; lia]).
      lia.
    + cbn [String.length]. specialize (IH 0). lia.
  - specialize (IH k). lia.
Qed.

(** It lengthens every text the pattern occurs in. *)
Lemma ReplaceAll_grows (s old new : string) :
  old <> EmptyString -> String.length old < String.length new ->
  Contains s old = true ->
  String.length s < String.length (ReplaceAll s old new).
Proof.
  intros Hne Hlen. unfold ReplaceAll.
  destruct old as [|d o] eqn:Eo; [congruence|]. rewrite <- Eo in *. clear Eo d o.
  induction s as [|c s IH]; intros Hc.
  - destruct old; [congruence | discriminate].
  - cbn [Contains] in Hc. cbn [replaceFrom].
    destruct (HasPrefix (String c s) old).
    + rewrite length_append_string. cbn [String.length].
      pose proof (replaceFrom_length old new Hne (Nat.lt_le_incl _ _ Hlen) s
                    (String.length old - 1)).
      assert (1 <= String.length old) by (destruct old; [congruence | cbn; lia]).
      lia.
    + cbn [orb] in Hc. cbn [String.length]. apply IH in Hc. lia.
Qed.

(** X15: for family "s3.xlarge.x86" and a one-line OSIE services URL, the
    lines wanted differ from the base family's in the flatcar-install line
    alone.  That line gains " -e 259" at its end, and the same whole-script
    replacement of "-s" is applied inside the URL: a URL without "-s" is
    kept as it is, a URL that holds "-s" is rewritten into another,
    longer one. *)
Theorem script_s3_install_line (osieURL : string)
  (Hline : oneLine osieURL = true) :
  job.mapLookup "s3.xlarge.x86" (script osieURL)
  = Some (Some (match Exec osieURL with
                | curl :: _ :: rest =>
                    curl
                    :: ("ExecStart=/usr/bin/flatcar-install -V current -C alpha -b "
                        ++ ReplaceAll osieURL "-s" "-s -e 259"
                        ++ "/flatcar/amd64-usr/alpha -o packet -s -e 259")%string
                    :: rest
                | lines => lines
                end)) /\
  (Contains osieURL "-s" = false ->
   ReplaceAll osieURL "-s" "-s -e 259" = osieURL) /\
  (Contains osieURL "-s" = true ->
   String.length osieURL < String.length (ReplaceAll osieURL "-s" "-s -e 259")).
Proof.
  split; [|split].
  - change (job.mapLookup "s3.xlarge.x86" (script osieURL))
      with (Some (replacer (Exec osieURL) ["-s"; "-s -e 259"]%string)).
    f_equal.
    rewrite replacer_lines; [| reflexivity | reflexivity |].
    + f_equal. unfold Exec. cbn [map replaceEach].
      apply (f_equal2 cons); [reflexivity|].
      apply (f_equal2 cons); [|reflexivity].
      rewrite ReplaceAll_app_start by (discriminate || reflexivity).
      rewrite ReplaceAll_app_end by (discriminate || reflexivity).
      reflexivity.
    + unfold Exec. cbn [forallb]. rewrite !oneLine_append, Hline. reflexivity.
  - intros H. apply ReplaceAll_absent; [discriminate | exact H].
  - intros H. apply ReplaceAll_grows; [discriminate | cbn; lia | exact H].
Qed.

(** The theorem at a URL that holds "-s": the lines wanted for
    "s3.xlarge.x86" point the installer at another URL. *)
Lemma script_s3_install_line_witness :
  nth 1 (match job.mapLookup "s3.xlarge.x86" (script "http://boots-srv/osie") with
         | Some (Some lines) => lines
         | _ => []
         end) EmptyString
  = ("ExecStart=/usr/bin/flatcar-install -V current -C alpha -b "
     ++ "http://boots-s -e 259rv/osie"
     ++ "/flatcar/amd64-usr/alpha -o packet -s -e 259")%string.
Proof.
  rewrite (proj1 (script_s3_install_line "http://boots-srv/osie" eq_refl)).
  reflexivity.
Defined.

End substitution_facts.
